(** * Safety scoring of the minimalist weather PWA (src/src/App.tsx)

    A shallow embedding of [safetyScore], [scoreToLevel] and [levelLabel].

    The weather fields of a reading are TypeScript [number]s, that is IEEE 754
    binary64 values; they are modelled by Rocq's primitive [float], whose
    comparisons are the IEEE ones JavaScript uses (a comparison with NaN is
    false).  The accumulator [score] starts at the literal 0 and only ever
    receives the literals 0, 1 and 2, all of them exact, so it is an integer
    and is modelled as [Z]. *)

From Stdlib Require Import ZArith Bool Lia String List DecimalString.
From Stdlib Require Import Floats.
From Stdlib Require Uint63.
Import ListNotations.

Local Open Scope Z_scope.
Local Open Scope bool_scope.

(** ** JavaScript comparisons on numbers *)

Module Js.

Definition le (x y : float) : bool := PrimFloat.leb x y.
Definition lt (x y : float) : bool := PrimFloat.ltb x y.
Definition ge (x y : float) : bool := PrimFloat.leb y x.
Definition gt (x y : float) : bool := PrimFloat.ltb y x.

(** [Number.isNaN] *)
Definition isNaN (x : float) : bool := PrimFloat.is_nan x.

End Js.

Declare Scope js_scope.
Delimit Scope js_scope with js.
Infix "<=" := Js.le : js_scope.
Infix "<" := Js.lt : js_scope.
Infix ">=" := Js.ge : js_scope.
Infix ">" := Js.gt : js_scope.
Infix "&&" := andb : js_scope.
Infix "||" := orb : js_scope.

(** ** Data model (the types of App.tsx) *)

(** [type Activity = "running" | "cycling"] *)
Inductive Activity : Set := running | cycling.

(** A property declared [aqiUS?: number | null]: left out (or [undefined]),
    [null], or a number. *)
Inductive OptNumber : Set :=
| undefined
| null
| number (n : float).

(** The parameter object of [safetyScore]. *)
Record Reading : Set := mkReading {
  activity : Activity;
  tempC : float;
  windKmh : float;
  precipMm : float;
  precipProb : float;
  aqiUS : OptNumber;
  weatherCode : option float;
}.

(** The return type of [scoreToLevel]: ["green" | "yellow" | "red"]. *)
Inductive Level : Set := green | yellow | red.

(** ** The scoring functions *)

Section Scoring.

Local Open Scope js_scope.

(** Lines 94-103 of App.tsx, the [// Temperature] block. *)
Definition addTemperature (activity : Activity) (tempC : float) (score : Z) : Z :=
  match activity with
  | running =>
      if (tempC >= 7) && (tempC <= 18) then (score + 0)%Z
      else if ((tempC > 18) && (tempC <= 26)) || ((tempC >= -5) && (tempC < 7))
           then (score + 1)%Z
      else (score + 2)%Z
  | cycling =>
      if (tempC >= 10) && (tempC <= 24) then (score + 0)%Z
      else if ((tempC > 24) && (tempC <= 30)) || ((tempC >= 0) && (tempC < 10))
           then (score + 1)%Z
      else (score + 2)%Z
  end.

(** Lines 105-114, the [// Wind] block. *)
Definition addWind (activity : Activity) (windKmh : float) (score : Z) : Z :=
  match activity with
  | running =>
      if windKmh <= 25 then (score + 0)%Z
      else if windKmh <= 39 then (score + 1)%Z
      else (score + 2)%Z
  | cycling =>
      if windKmh <= 20 then (score + 0)%Z
      else if windKmh <= 32 then (score + 1)%Z
      else (score + 2)%Z
  end.

(** Lines 116-118, the [// Precipitation] block (no final [else]). *)
Definition addPrecipitation (precipMm precipProb : float) (score : Z) : Z :=
  if precipMm >= 3 then (score + 2)%Z
  else if (precipMm >= 1) || (precipProb >= 50) then (score + 1)%Z
  else score.

(** Lines 120-125, the [// Air Quality] block: [typeof aqiUS === "number"]
    holds of a number (NaN included) and of neither [undefined] nor [null]. *)
Definition addAirQuality (aqiUS : OptNumber) (score : Z) : Z :=
  match aqiUS with
  | number aqiUS =>
      if aqiUS <= 50 then (score + 0)%Z
      else if aqiUS <= 100 then (score + 1)%Z
      else (score + 2)%Z
  | undefined | null => score
  end.

(** [safetyScore]: the four blocks in order on [let score = 0]; the
    destructuring on line 91 does not read [weatherCode]. *)
Definition safetyScore (p : Reading) : Z :=
  let '(activity, tempC, windKmh, precipMm, precipProb, aqiUS) :=
    (p.(activity), p.(tempC), p.(windKmh), p.(precipMm), p.(precipProb), p.(aqiUS)) in
  let score := 0%Z in
  let score := addTemperature activity tempC score in
  let score := addWind activity windKmh score in
  let score := addPrecipitation precipMm precipProb score in
  let score := addAirQuality aqiUS score in
  score.

Definition scoreToLevel (score : Z) : Level :=
  if (score <=? 2)%Z then green
  else if (score <=? 4)%Z then yellow
  else red.

Definition levelLabel (level : Level) : string :=
  match level with
  | green => "Ideal for outdoors"
  | yellow => "Caution advised"
  | red => "Not recommended"
  end.

End Scoring.

(** The binary64 value the literal [18.01] denotes (the nearest to 18.01). *)
Definition t18_01 : float := 0x1.2028f5c28f5c3p+4%float.

(** The sub-scores: what each block adds to a score of 0. *)
Definition temperatureScore (a : Activity) (t : float) : Z := addTemperature a t 0.
Definition windScore (a : Activity) (w : float) : Z := addWind a w 0.
Definition precipitationScore (mm prob : float) : Z := addPrecipitation mm prob 0.
Definition airQualityScore (aqi : OptNumber) : Z := addAirQuality aqi 0.

(** The number that holds a small non-negative integer. *)
Definition numberOfInt (z : Z) : float := PrimFloat.of_uint63 (Uint63.of_Z z).

(** Severity of a level, for stating monotonicity: green < yellow < red. *)
Definition severity (l : Level) : nat :=
  match l with
  | green => 0
  | yellow => 1
  | red => 2
  end.

(** [{ ...p, aqiUS: v }] and [{ ...p, weatherCode: w }] *)
Definition withAqi (p : Reading) (v : OptNumber) : Reading :=
  mkReading p.(activity) p.(tempC) p.(windKmh) p.(precipMm) p.(precipProb) v p.(weatherCode).
Definition withWeatherCode (p : Reading) (w : option float) : Reading :=
  mkReading p.(activity) p.(tempC) p.(windKmh) p.(precipMm) p.(precipProb) p.(aqiUS) w.
Definition withActivity (p : Reading) (a : Activity) : Reading :=
  mkReading a p.(tempC) p.(windKmh) p.(precipMm) p.(precipProb) p.(aqiUS) p.(weatherCode).

(** [{ ...p, tempC: t }] and the like for the other weather fields. *)
Definition withTempC (p : Reading) (t : float) : Reading :=
  mkReading p.(activity) t p.(windKmh) p.(precipMm) p.(precipProb) p.(aqiUS) p.(weatherCode).
Definition withWindKmh (p : Reading) (w : float) : Reading :=
  mkReading p.(activity) p.(tempC) w p.(precipMm) p.(precipProb) p.(aqiUS) p.(weatherCode).
Definition withPrecipMm (p : Reading) (mm : float) : Reading :=
  mkReading p.(activity) p.(tempC) p.(windKmh) mm p.(precipProb) p.(aqiUS) p.(weatherCode).
Definition withPrecipProb (p : Reading) (prob : float) : Reading :=
  mkReading p.(activity) p.(tempC) p.(windKmh) p.(precipMm) prob p.(aqiUS) p.(weatherCode).

(** The readings of the five scenarios of the specification. *)
Definition scenario1 := mkReading running 12 10 0 0 (number 30) None.
Definition scenario2 := mkReading running 30 45 0 0 undefined None.
Definition scenario3 := mkReading running 12 10 5 90 (number 150) None.
Definition scenario4 := mkReading running (-10) 50 0 0 undefined None.
Definition scenario5 := mkReading cycling 35 40 4 100 (number 120) None.

(** ** Runtime values of the fetch and render code *)

(** [ToNumber], as the relational operators apply it to an operand:
    [undefined] is NaN and [null] is +0. *)
Definition toNumber (v : OptNumber) : float :=
  match v with
  | undefined => nan
  | null => 0%float
  | number n => n
  end.

(** [v ?? d] *)
Definition nullish (v d : OptNumber) : OptNumber :=
  match v with
  | undefined | null => d
  | number _ => v
  end.

(** [a[k]] on an array: [undefined] outside the array. *)
Definition index {A : Type} (a : list A) (k : Z) : option A :=
  if (k <? 0)%Z then None else nth_error a (Z.to_nat k).

(** [a[k]] on an array of numbers, whose entries the code itself guards
    against being [null] or [undefined]. *)
Definition indexNumber (a : list OptNumber) (k : Z) : OptNumber :=
  match index a k with
  | Some v => v
  | None => undefined
  end.

(** [Array.prototype.findIndex]: the first index whose element passes, else -1. *)
Fixpoint findIndexFrom {A : Type} (f : A -> bool) (l : list A) (i : Z) : Z :=
  match l with
  | [] => (-1)%Z
  | x :: r => if f x then i else findIndexFrom f r (i + 1)%Z
  end.
Definition findIndex {A : Type} (f : A -> bool) (l : list A) : Z :=
  findIndexFrom f l 0%Z.

(** [Array.prototype.forEach] with a callback [(t, i) => ...] that updates
    the variables it captures, here the state [s]. *)
Fixpoint forEachFrom {S A : Type} (f : S -> A -> Z -> S) (l : list A) (i : Z) (s : S) : S :=
  match l with
  | [] => s
  | t :: r => forEachFrom f r (i + 1)%Z (f s t i)
  end.
Definition forEach {S A : Type} (f : S -> A -> Z -> S) (l : list A) (s : S) : S :=
  forEachFrom f l 0%Z s.

(** A value read from the per-hour table or held by [aqiUS] of a card:
    [undefined], [null], a number, or an object or function (what a plain
    object inherits from [Object.prototype]). *)
Inductive JsValue : Set :=
| jsUndefined
| jsNull
| jsNumber (n : float)
| jsObject.

(** [v ?? d] on such values. *)
Definition nullishValue (v d : JsValue) : JsValue :=
  match v with
  | jsUndefined | jsNull => d
  | jsNumber _ | jsObject => v
  end.

(** The own properties of a [Record<string, number>] that starts as [{}],
    latest assignment first. *)
Definition AqiMap : Set := list (string * float).

(** [out[t] = v] with [v] a number.  Every key gets an own property except
    ["__proto__"]: that assignment runs the setter [{}] inherits, which
    ignores a value that is neither an object nor [null], and stores
    nothing. *)
Definition setKey (out : AqiMap) (t : string) (v : float) : AqiMap :=
  if String.eqb t "__proto__" then out else (t, v) :: out.

(** The own property [t] of the table ([undefined] when it has none). *)
Fixpoint getKey (m : AqiMap) (t : string) : OptNumber :=
  match m with
  | [] => undefined
  | (k, v) :: r => if String.eqb k t then number v else getKey r t
  end.

(** The methods a plain object inherits from [Object.prototype]. *)
Definition inheritedMethods : list string :=
  ["constructor"; "hasOwnProperty"; "isPrototypeOf"; "propertyIsEnumerable";
   "toLocaleString"; "toString"; "valueOf"; "__defineGetter__";
   "__defineSetter__"; "__lookupGetter__"; "__lookupSetter__"]%string.

(** [perHourAQI[t]]: ["__proto__"] reads the prototype object through the
    inherited getter; any other key reads the own property, else the
    inherited method of that name, else [undefined]. *)
Definition readKey (m : AqiMap) (t : string) : JsValue :=
  if String.eqb t "__proto__" then jsObject
  else match getKey m t with
       | number v => jsNumber v
       | undefined | null =>
           if existsb (String.eqb t) inheritedMethods then jsObject else jsUndefined
       end.

(** The property key an optional time stamp is turned into. *)
Definition propertyKey (t : option string) : string :=
  match t with
  | Some s => s
  | None => "undefined"
  end.

(** [type HourPoint] and [type CurrentWeather], with the values their fields
    hold at run time. *)
Module HourPoint.
Record t : Set := mk {
  time : option string;
  tempC : OptNumber;
  precipMm : OptNumber;
  precipProb : OptNumber;
  windKmh : OptNumber;
  weatherCode : OptNumber;
  aqiUS : JsValue;
}.
End HourPoint.

Module CurrentWeather.
Record t : Set := mk {
  tempC : float;
  windKmh : float;
  weatherCode : float;
  aqiUS : OptNumber;
}.
End CurrentWeather.

(** [type ForecastPack] *)
Record ForecastPack : Set := mkPack {
  current : option CurrentWeather.t;
  next12h : list HourPoint.t;
}.

(** ** [fetchForecast], from the parsed response on (lines 195-216) *)

Section FetchForecast.

(** [new Date(iso).getTime()] and [now.getTime()] *)
Variable getTime : string -> float.
Variable now : float.

(** [hourly.time || []] and the five series, each [|| []]. *)
Variables (times : list string) (tC pr prp wind codes : list OptNumber).

Definition isRecent (iso : string) : bool :=
  Js.ge (getTime iso) (now - 30 * 60 * 1000)%float.

Definition idxNow : Z := findIndex isRecent times.
Definition start : Z := Z.max 0 idxNow.

Definition hourAt (k : Z) : HourPoint.t :=
  HourPoint.mk (index times k) (indexNumber tC k) (indexNumber pr k)
               (nullish (indexNumber prp k) (number 0)) (indexNumber wind k)
               (indexNumber codes k) jsUndefined.

(** [Boolean(h)] of an object. *)
Definition truthy (h : HourPoint.t) : bool := true.

(** [Array.from({ length: 12 }).map((_, i) => ...).filter(Boolean)] *)
Definition next12 : list HourPoint.t :=
  filter truthy (map (fun i => hourAt (start + Z.of_nat i)) (seq 0 12)).

End FetchForecast.

(** ** [fetchAirQuality], the Open-Meteo branch (lines 256-270) *)

Section FetchAirQuality.

Variable getTime : string -> float.
Variable now : float.
Variables (times : list string) (aqi : list OptNumber).

(** [times.forEach((t, i) => { if (typeof aqi[i] === "number") out[t] = aqi[i]; })] *)
Definition recordAqi (out : AqiMap) (t : string) (i : Z) : AqiMap :=
  match indexNumber aqi i with
  | number v => setKey out t v
  | undefined | null => out
  end.
Definition perHourAQI : AqiMap := forEach recordAqi times [].

(** [Math.abs(new Date(t).getTime() - now.getTime())] *)
Definition diffOf (t : string) : float := PrimFloat.abs (getTime t - now)%float.

(** The second loop, on the pair [(minDiff, currentAQI)]. *)
Definition nearer (s : float * OptNumber) (t : string) (i : Z) : float * OptNumber :=
  let '(minDiff, currentAQI) := s in
  let diff := diffOf t in
  if Js.lt diff minDiff then (diff, indexNumber aqi i) else (minDiff, currentAQI).
Definition nearest : float * OptNumber := forEach nearer times (infinity, null).
Definition currentAQI : OptNumber := snd nearest.

End FetchAirQuality.

(** ** The component: blending and rating (lines 335-337, 353-365, 477-487) *)

(** [{ ...h, aqiUS: perHourAQI[h.time] ?? null }] *)
Definition blendHour (perHour : AqiMap) (h : HourPoint.t) : HourPoint.t :=
  HourPoint.mk h.(HourPoint.time) h.(HourPoint.tempC) h.(HourPoint.precipMm)
               h.(HourPoint.precipProb) h.(HourPoint.windKmh) h.(HourPoint.weatherCode)
               (nullishValue (readKey perHour (propertyKey h.(HourPoint.time))) jsNull).

(** [{ ...fc.current, aqiUS: aq.currentAQI ?? null }] *)
Definition blendCurrent (aqNow : OptNumber) (c : CurrentWeather.t) : CurrentWeather.t :=
  CurrentWeather.mk c.(CurrentWeather.tempC) c.(CurrentWeather.windKmh)
                    c.(CurrentWeather.weatherCode) (nullish aqNow null).

Definition optionOfNumber (v : OptNumber) : option float :=
  match v with
  | number n => Some n
  | undefined | null => None
  end.

(** [h.aqiUS ?? undefined] as [safetyScore] sees it: it only asks
    [typeof aqiUS === "number"], which an object fails as [undefined] does. *)
Definition aqiArgument (v : JsValue) : OptNumber :=
  match nullishValue v jsUndefined with
  | jsNumber n => number n
  | jsUndefined | jsNull | jsObject => undefined
  end.

(** The argument of [safetyScore] for a forecast card.  [safetyScore] only
    compares the four weather fields with number literals, which applies
    [ToNumber] to them. *)
Definition hourReading (a : Activity) (h : HourPoint.t) : Reading :=
  mkReading a (toNumber h.(HourPoint.tempC)) (toNumber h.(HourPoint.windKmh))
            (toNumber h.(HourPoint.precipMm)) (toNumber h.(HourPoint.precipProb))
            (aqiArgument h.(HourPoint.aqiUS))
            (optionOfNumber h.(HourPoint.weatherCode)).

(** The [level] of a forecast card. *)
Definition hourLevel (a : Activity) (h : HourPoint.t) : Level :=
  let s := safetyScore (hourReading a h) in
  scoreToLevel s.

(** [pack.next12h[0]?.precipMm ?? 0] and the same for [precipProb] *)
Definition firstHour (next : list HourPoint.t) (field : HourPoint.t -> OptNumber) : OptNumber :=
  nullish (match index next 0 with
           | Some h => field h
           | None => undefined
           end) (number 0).

(** [currentLevel]: [null] without current weather. *)
Definition currentReading (a : Activity) (c : CurrentWeather.t) (next : list HourPoint.t) : Reading :=
  mkReading a c.(CurrentWeather.tempC) c.(CurrentWeather.windKmh)
            (toNumber (firstHour next HourPoint.precipMm))
            (toNumber (firstHour next HourPoint.precipProb))
            (nullish c.(CurrentWeather.aqiUS) undefined)
            (Some c.(CurrentWeather.weatherCode)).
Definition currentLevel (a : Activity) (pack : ForecastPack) : option Level :=
  match pack.(current) with
  | None => None
  | Some c =>
      let s := safetyScore (currentReading a c pack.(next12h)) in
      Some (scoreToLevel s)
  end.

(** ** Presentation helpers (lines 69-87, 141-155) *)

(** [SameValueZero], the equality of [Array.prototype.includes]. *)
Definition sameValueZero (x y : float) : bool :=
  PrimFloat.eqb x y || (PrimFloat.is_nan x && PrimFloat.is_nan y).
Definition includes (l : list float) (x : float) : bool :=
  existsb (fun e => sameValueZero e x) l.

(** The code lists of [weatherEmoji], in the order it tests them. *)
Definition clearCodes : list float := [0%float].
Definition partlyCodes : list float := [1; 2]%float.
Definition overcastCodes : list float := [3%float].
Definition fogCodes : list float := [45; 48]%float.
Definition rainCodes : list float := [51; 53; 55; 61; 63; 65; 80; 81; 82]%float.
Definition snowCodes : list float := [66; 67; 71; 73; 75; 85; 86]%float.
Definition thunderCodes : list float := [95; 96; 99]%float.

Definition weatherEmoji (code : float) : string :=
  if includes clearCodes code then "☀️"
  else if includes partlyCodes code then "🌤️"
  else if includes overcastCodes code then "☁️"
  else if includes fogCodes code then "🌫️"
  else if includes rainCodes code then "🌧️"
  else if includes snowCodes code then "🌨️"
  else if includes thunderCodes code then "⛈️"
  else "🌡️".

(** What [d.getHours()] returns: NaN for an invalid date, else an integer. *)
Inductive Hours : Set :=
| invalidHours
| hours (h : Z).

(** The decimal digits of an integer, as a template literal prints it. *)
Definition decimal (z : Z) : string := NilZero.string_of_int (Z.to_int z).

(** [hourLabel], from [const h = d.getHours()] on.  NaN fails [h >= 12], and
    [NaN % 12] is NaN, which [||] replaces by 12 as it does 0. *)
Definition hourLabel (getHours : Hours) : string :=
  match getHours with
  | invalidHours => (decimal 12 ++ "AM")%string
  | hours h =>
      let ampm := if (h >=? 12)%Z then "PM"%string else "AM"%string in
      let hour12 := if (Z.rem h 12 =? 0)%Z then 12%Z else Z.rem h 12 in
      (decimal hour12 ++ ampm)%string
  end.

Definition levelClasses (level : Level) : string :=
  match level with
  | green => "bg-green-500 text-white"
  | yellow => "bg-yellow-500 text-black"
  | red => "bg-red-600 text-white"
  end.

Definition dotClasses (level : Level) : string :=
  match level with
  | green => "bg-green-500"
  | yellow => "bg-yellow-500"
  | red => "bg-red-600"
  end.

(** How many of the four sub-scores of a reading are not 0. *)
Definition factorsNotIdeal (p : Reading) : Z :=
  (if temperatureScore p.(activity) p.(tempC) =? 0 then 0 else 1)
  + (if windScore p.(activity) p.(windKmh) =? 0 then 0 else 1)
  + (if precipitationScore p.(precipMm) p.(precipProb) =? 0 then 0 else 1)
  + (if airQualityScore p.(aqiUS) =? 0 then 0 else 1).

(** Air quality [x] is no worse than [y]: no index at all, or a smaller or
    equal one. *)
Definition aqiNoWorse (x y : OptNumber) : bool :=
  match x, y with
  | number a, number b => Js.le a b
  | number _, (undefined | null) => false
  | (undefined | null), _ => true
  end.

(** * Properties *)

(** ** Order facts about IEEE comparison, from the specification floats *)

Section SpecOrder.

(** Case analysis on every exponent and mantissa comparison in the goal. *)
Ltac sf_compare :=
  repeat match goal with
  | |- context [Z.compare ?a ?b] =>
      destruct (Z.compare_spec a b); subst; simpl
  | |- context [Pos.compare_cont Eq ?a ?b] =>
      change (Pos.compare_cont Eq a b) with (Pos.compare a b);
      destruct (Pos.compare_spec a b); subst; simpl
  end;
  try congruence; try lia.

Ltac sf_destruct x :=
  let s := fresh "s" in
  destruct x as [s|s| |s ? ?]; try destruct s.

Lemma SFltb_SFleb_false x y : SFltb x y = true -> SFleb y x = false.
Proof.
  unfold SFltb, SFleb.
  sf_destruct x; sf_destruct y; simpl; try congruence; sf_compare.
Qed.

Lemma SFleb_SFltb_false x y : SFleb x y = true -> SFltb y x = false.
Proof.
  unfold SFltb, SFleb.
  sf_destruct x; sf_destruct y; simpl; try congruence; sf_compare.
Qed.

Lemma SFltb_SFleb_trans x y z :
  SFltb x y = true -> SFleb y z = true -> SFltb x z = true.
Proof.
  unfold SFltb, SFleb.
  sf_destruct x; sf_destruct y; sf_destruct z; simpl; try congruence; sf_compare.
Qed.

Lemma SFleb_SFltb_trans x y z :
  SFleb x y = true -> SFltb y z = true -> SFltb x z = true.
Proof.
  unfold SFltb, SFleb.
  sf_destruct x; sf_destruct y; sf_destruct z; simpl; try congruence; sf_compare.
Qed.

Lemma SFltb_trans x y z :
  SFltb x y = true -> SFltb y z = true -> SFltb x z = true.
Proof.
  unfold SFltb.
  sf_destruct x; sf_destruct y; sf_destruct z; simpl; try congruence; sf_compare.
Qed.

(** Two numbers that are not NaN are comparable. *)
Lemma SFleb_false_SFltb x y :
  SFeqb x x = true -> SFeqb y y = true ->
  SFleb x y = false -> SFltb y x = true.
Proof.
  unfold SFltb, SFleb, SFeqb.
  sf_destruct x; sf_destruct y; simpl; try congruence; sf_compare.
Qed.

Lemma SFeqb_nan_l x y : SFeqb x x = false -> SFcompare x y = None.
Proof.
  unfold SFeqb.
  sf_destruct x; simpl; try congruence; sf_compare.
  all: rewrite Pos.compare_cont_refl; congruence.
Qed.

Lemma SFeqb_nan_r x y : SFeqb y y = false -> SFcompare x y = None.
Proof.
  unfold SFeqb.
  sf_destruct y; simpl; try congruence; sf_compare.
  all: try (rewrite Pos.compare_cont_refl; congruence).
  all: now destruct x.
Qed.

End SpecOrder.

(** ** The same facts for JavaScript numbers *)

Section JsOrder.

Local Open Scope js_scope.

Lemma lt_not_ge x y : (x < y) = true -> (x >= y) = false.
Proof.
  unfold Js.lt, Js.ge. rewrite ltb_spec, leb_spec. apply SFltb_SFleb_false.
Qed.

Lemma gt_not_le x y : (x > y) = true -> (x <= y) = false.
Proof. intros H. apply (lt_not_ge y x H). Qed.

Lemma le_not_gt x y : (x <= y) = true -> (x > y) = false.
Proof.
  unfold Js.le, Js.gt. rewrite ltb_spec, leb_spec. apply SFleb_SFltb_false.
Qed.

Lemma ge_not_lt x y : (x >= y) = true -> (x < y) = false.
Proof. intros H. apply (le_not_gt y x H). Qed.

Lemma lt_le_trans x y z : (x < y) = true -> (y <= z) = true -> (x < z) = true.
Proof.
  unfold Js.lt, Js.le. rewrite !ltb_spec, leb_spec. apply SFltb_SFleb_trans.
Qed.

Lemma le_lt_trans x y z : (x <= y) = true -> (y < z) = true -> (x < z) = true.
Proof.
  unfold Js.lt, Js.le. rewrite !ltb_spec, leb_spec. apply SFleb_SFltb_trans.
Qed.

Lemma lt_trans x y z : (x < y) = true -> (y < z) = true -> (x < z) = true.
Proof.
  unfold Js.lt. rewrite !ltb_spec. apply SFltb_trans.
Qed.

(** Every comparison with NaN is false. *)
Lemma le_nan_l x y : Js.isNaN x = true -> (x <= y) = false.
Proof.
  unfold Js.isNaN, is_nan, Js.le. rewrite eqb_spec, leb_spec. intros H.
  apply negb_true_iff in H. unfold SFleb.
  now rewrite (SFeqb_nan_l _ _ H).
Qed.

Lemma le_nan_r x y : Js.isNaN y = true -> (x <= y) = false.
Proof.
  unfold Js.isNaN, is_nan, Js.le. rewrite eqb_spec, leb_spec. intros H.
  apply negb_true_iff in H. unfold SFleb.
  now rewrite (SFeqb_nan_r _ _ H).
Qed.

Lemma lt_nan_l x y : Js.isNaN x = true -> (x < y) = false.
Proof.
  unfold Js.isNaN, is_nan, Js.lt. rewrite eqb_spec, ltb_spec. intros H.
  apply negb_true_iff in H. unfold SFltb.
  now rewrite (SFeqb_nan_l _ _ H).
Qed.

Lemma lt_nan_r x y : Js.isNaN y = true -> (x < y) = false.
Proof.
  unfold Js.isNaN, is_nan, Js.lt. rewrite eqb_spec, ltb_spec. intros H.
  apply negb_true_iff in H. unfold SFltb.
  now rewrite (SFeqb_nan_r _ _ H).
Qed.

(** Numbers other than NaN are totally ordered. *)
Lemma not_le_gt x y :
  Js.isNaN x = false -> Js.isNaN y = false ->
  (x <= y) = false -> (x > y) = true.
Proof.
  unfold Js.isNaN, is_nan, Js.le, Js.gt.
  rewrite !eqb_spec, leb_spec, ltb_spec. intros Hx Hy.
  apply negb_false_iff in Hx, Hy. now apply SFleb_false_SFltb.
Qed.

Lemma not_ge_lt x y :
  Js.isNaN x = false -> Js.isNaN y = false ->
  (x >= y) = false -> (x < y) = true.
Proof. intros Hx Hy H. apply (not_le_gt y x Hy Hx H). Qed.

End JsOrder.

(** ** Proof automation for chains of comparisons *)

(** Expose the primitive comparisons behind the JavaScript operators. *)
Ltac js_unfold := unfold Js.le, Js.lt, Js.ge, Js.gt in *.

(** Closes a goal whose hypotheses order a number inconsistently. *)
Ltac js_absurd :=
  js_unfold;
  match goal with
  | H1 : PrimFloat.ltb ?a ?b = true, H2 : PrimFloat.leb ?b ?a = true |- _ =>
      rewrite (lt_not_ge a b H1) in H2; discriminate H2
  | H1 : PrimFloat.ltb ?a ?b = true, H2 : PrimFloat.leb ?b ?c = true |- _ =>
      let H := fresh in
      pose proof (lt_le_trans a b c H1 H2) as H; vm_compute in H; discriminate H
  | H1 : PrimFloat.leb ?a ?b = true, H2 : PrimFloat.ltb ?b ?c = true |- _ =>
      let H := fresh in
      pose proof (le_lt_trans a b c H1 H2) as H; vm_compute in H; discriminate H
  | H1 : PrimFloat.ltb ?a ?b = true, H2 : PrimFloat.ltb ?b ?c = true |- _ =>
      let H := fresh in
      pose proof (lt_trans a b c H1 H2) as H; vm_compute in H; discriminate H
  end.

(** Decides one block: split on every comparison the block makes. *)
Ltac js_cases :=
  js_unfold;
  repeat match goal with
  | H : _ /\ _ |- _ => destruct H
  | H : _ \/ _ |- _ => destruct H
  end;
  repeat match goal with
  | |- context [PrimFloat.leb ?a ?b] => destruct (PrimFloat.leb a b) eqn:?
  | |- context [PrimFloat.ltb ?a ?b] => destruct (PrimFloat.ltb a b) eqn:?
  end;
  simpl; try reflexivity; try discriminate; try lia; try js_absurd.

(** ** How the total splits into the four sub-scores *)

Lemma addTemperature_add a t s : addTemperature a t s = s + temperatureScore a t.
Proof. unfold temperatureScore, addTemperature. destruct a; js_cases. Qed.

Lemma addWind_add a w s : addWind a w s = s + windScore a w.
Proof. unfold windScore, addWind. destruct a; js_cases. Qed.

Lemma addPrecipitation_add mm prob s :
  addPrecipitation mm prob s = s + precipitationScore mm prob.
Proof. unfold precipitationScore, addPrecipitation. js_cases. Qed.

Lemma addAirQuality_add aqi s : addAirQuality aqi s = s + airQualityScore aqi.
Proof. unfold airQualityScore, addAirQuality. destruct aqi; js_cases. Qed.

Lemma safetyScore_sum p :
  safetyScore p =
    temperatureScore p.(activity) p.(tempC) + windScore p.(activity) p.(windKmh)
    + precipitationScore p.(precipMm) p.(precipProb) + airQualityScore p.(aqiUS).
Proof.
  unfold safetyScore; cbv zeta.
  rewrite addAirQuality_add, addPrecipitation_add, addWind_add, addTemperature_add.
  reflexivity.
Qed.

Lemma temperatureScore_range a t : 0 <= temperatureScore a t <= 2.
Proof. unfold temperatureScore, addTemperature. destruct a; js_cases. Qed.

Lemma windScore_range a w : 0 <= windScore a w <= 2.
Proof. unfold windScore, addWind. destruct a; js_cases. Qed.

Lemma precipitationScore_range mm prob : 0 <= precipitationScore mm prob <= 2.
Proof. unfold precipitationScore, addPrecipitation. js_cases. Qed.

Lemma airQualityScore_range aqi : 0 <= airQualityScore aqi <= 2.
Proof. unfold airQualityScore, addAirQuality. destruct aqi; js_cases. Qed.

(** ** The rule table *)

Section RuleTable.

Local Open Scope js_scope.

(** C1: for every reading, the total of [safetyScore] is the temperature
    sub-score of the table plus the wind, precipitation and air-quality
    sub-scores.  For running the temperature sub-score is 0 when
    7 <= tempC <= 18, 1 when 18 < tempC <= 26 or -5 <= tempC < 7, and 2 when
    tempC < -5 or tempC > 26; for cycling it is 0 when 10 <= tempC <= 24,
    1 when 24 < tempC <= 30 or 0 <= tempC < 10, and 2 when tempC < 0 or
    tempC > 30.  For running, 18 contributes 0 and 18.01 contributes 1. *)
Theorem temperature_table (p : Reading) :
  let t := p.(tempC) in
  let others :=
    (windScore p.(activity) p.(windKmh)
     + precipitationScore p.(precipMm) p.(precipProb)
     + airQualityScore p.(aqiUS))%Z in
  (p.(activity) = running ->
   ((7 <= t) = true /\ (t <= 18) = true -> safetyScore p = (0 + others)%Z) /\
   (((18 < t) = true /\ (t <= 26) = true) \/
    ((-5 <= t) = true /\ (t < 7) = true) -> safetyScore p = (1 + others)%Z) /\
   ((t < -5) = true \/ (t > 26) = true -> safetyScore p = (2 + others)%Z) /\
   (t = 18%float -> safetyScore p = (0 + others)%Z) /\
   (t = t18_01 -> safetyScore p = (1 + others)%Z)) /\
  (p.(activity) = cycling ->
   ((10 <= t) = true /\ (t <= 24) = true -> safetyScore p = (0 + others)%Z) /\
   (((24 < t) = true /\ (t <= 30) = true) \/
    ((0 <= t) = true /\ (t < 10) = true) -> safetyScore p = (1 + others)%Z) /\
   ((t < 0) = true \/ (t > 30) = true -> safetyScore p = (2 + others)%Z)).
Proof.
  cbv zeta. rewrite safetyScore_sum.
  split; intros A; rewrite A; repeat split; intros H.
  all: try (rewrite H; change (temperatureScore running 18) with 0%Z; lia).
  all: try (rewrite H; change (temperatureScore running t18_01) with 1%Z; lia).
  all: match goal with
       | |- (temperatureScore ?a ?t + ?w + ?r + ?q = ?k + _)%Z =>
           assert (E : temperatureScore a t = k)
             by (unfold temperatureScore, addTemperature; js_cases);
           rewrite E; lia
       end.
Qed.

Lemma temperature_table_witness :
  ((18 < 20) = true /\ (20 <= 26) = true) /\
  safetyScore (mkReading running 20 30 5 90 (number 150) None) =
    (1 + (windScore running 30 + precipitationScore 5 90
          + airQualityScore (number 150)))%Z.
Proof.
  split; [split; reflexivity|].
  apply (proj1 (proj2 (proj1
    (temperature_table (mkReading running 20 30 5 90 (number 150) None))
    eq_refl))).
  left; split; reflexivity.
Defined.

(** C2: for every reading, the total of [safetyScore] is the wind
    sub-score of the table plus the temperature, precipitation and
    air-quality sub-scores.  For running the wind sub-score is 0 when
    windKmh <= 25, 1 when 25 < windKmh <= 39, 2 when windKmh > 39; for
    cycling, 0 when windKmh <= 20, 1 when 20 < windKmh <= 32, 2 when
    windKmh > 32.  A wind exactly at a threshold gets the lower sub-score. *)
Theorem wind_table (p : Reading) :
  let w := p.(windKmh) in
  let others :=
    (temperatureScore p.(activity) p.(tempC)
     + precipitationScore p.(precipMm) p.(precipProb)
     + airQualityScore p.(aqiUS))%Z in
  (p.(activity) = running ->
   ((w <= 25) = true -> safetyScore p = (0 + others)%Z) /\
   ((25 < w) = true /\ (w <= 39) = true -> safetyScore p = (1 + others)%Z) /\
   ((w > 39) = true -> safetyScore p = (2 + others)%Z) /\
   (w = 25%float -> safetyScore p = (0 + others)%Z) /\
   (w = 39%float -> safetyScore p = (1 + others)%Z)) /\
  (p.(activity) = cycling ->
   ((w <= 20) = true -> safetyScore p = (0 + others)%Z) /\
   ((20 < w) = true /\ (w <= 32) = true -> safetyScore p = (1 + others)%Z) /\
   ((w > 32) = true -> safetyScore p = (2 + others)%Z) /\
   (w = 20%float -> safetyScore p = (0 + others)%Z) /\
   (w = 32%float -> safetyScore p = (1 + others)%Z)).
Proof.
  cbv zeta. rewrite safetyScore_sum.
  split; intros A; rewrite A; repeat split; intros H.
  all: try (rewrite H;
            match goal with
            | |- (_ + windScore ?a ?c + _ + _ = ?k + _)%Z =>
                change (windScore a c) with k; lia
            end).
  all: match goal with
       | |- (?t + windScore ?a ?w + ?r + ?q = ?k + _)%Z =>
           assert (E : windScore a w = k)
             by (unfold windScore, addWind; js_cases);
           rewrite E; lia
       end.
Qed.

Lemma wind_table_witness :
  ((25 < 30) = true /\ (30 <= 39) = true) /\
  safetyScore (mkReading running 20 30 5 90 (number 150) None) =
    (1 + (temperatureScore running 20 + precipitationScore 5 90
          + airQualityScore (number 150)))%Z.
Proof.
  split; [split; reflexivity|].
  apply (proj1 (proj2 (proj1
    (wind_table (mkReading running 20 30 5 90 (number 150) None)) eq_refl))).
  split; reflexivity.
Defined.

(** C3: for every reading and either activity, the total of [safetyScore]
    is the temperature, wind and air-quality sub-scores plus a precipitation
    sub-score that is 2 when precipMm >= 3, else 1 when precipMm >= 1 or
    precipProb >= 50, else 0; the activity does not enter it: changing only
    the activity of a reading keeps the precipitation contribution (the
    total less the other three sub-scores). *)
Theorem precipitation_rule (p : Reading) (a : Activity) :
  let mm := p.(precipMm) in
  let prob := p.(precipProb) in
  let others (x : Activity) :=
    (temperatureScore x p.(tempC) + windScore x p.(windKmh)
     + airQualityScore p.(aqiUS))%Z in
  ((mm >= 3) = true ->
   safetyScore (withActivity p a) = (others a + 2)%Z) /\
  ((mm >= 3) = false -> (mm >= 1) = true \/ (prob >= 50) = true ->
   safetyScore (withActivity p a) = (others a + 1)%Z) /\
  ((mm >= 3) = false -> (mm >= 1) = false -> (prob >= 50) = false ->
   safetyScore (withActivity p a) = (others a + 0)%Z) /\
  (safetyScore (withActivity p a) - others a =
   safetyScore p - others p.(activity))%Z /\
  (safetyScore p - others p.(activity) = precipitationScore mm prob)%Z.
Proof.
  cbv zeta. rewrite !safetyScore_sum. unfold withActivity.
  cbn [activity tempC windKmh precipMm precipProb aqiUS].
  repeat split; try lia.
  - intros H.
    assert (E : precipitationScore p.(precipMm) p.(precipProb) = 2%Z)
      by (unfold precipitationScore, addPrecipitation; now rewrite H).
    rewrite E. lia.
  - intros H1 H2.
    assert (E : precipitationScore p.(precipMm) p.(precipProb) = 1%Z).
    { unfold precipitationScore, addPrecipitation. rewrite H1.
      destruct H2 as [H2|H2]; rewrite H2; [reflexivity|].
      now rewrite orb_true_r. }
    rewrite E. lia.
  - intros H1 H2 H3.
    assert (E : precipitationScore p.(precipMm) p.(precipProb) = 0%Z)
      by (unfold precipitationScore, addPrecipitation; now rewrite H1, H2, H3).
    rewrite E. lia.
Qed.

Lemma precipitation_rule_witness :
  (5 >= 3) = true /\
  safetyScore (withActivity (mkReading running 12 30 5 90 (number 150) None) cycling) =
    (temperatureScore cycling 12 + windScore cycling 30
     + airQualityScore (number 150) + 2)%Z.
Proof.
  split; [reflexivity|].
  apply (proj1 (precipitation_rule
                  (mkReading running 12 30 5 90 (number 150) None) cycling)).
  reflexivity.
Defined.

End RuleTable.

(** ** Air quality, totals and levels *)

Section Totals.

Local Open Scope js_scope.

(** C4: with a numeric index [a], the total is the total without the index
    plus the air-quality sub-score, which is 0 if a <= 50, 1 if
    50 < a <= 100, 2 if a > 100; without an index ([undefined] or [null])
    the total is exactly the sum of the other three sub-scores. *)
Theorem air_quality_additive (p : Reading) (a : float) :
  safetyScore (withAqi p (number a)) =
    (safetyScore (withAqi p undefined) + airQualityScore (number a))%Z /\
  ((a <= 50) = true -> airQualityScore (number a) = 0%Z) /\
  ((50 < a) = true /\ (a <= 100) = true -> airQualityScore (number a) = 1%Z) /\
  ((a > 100) = true -> airQualityScore (number a) = 2%Z) /\
  airQualityScore undefined = 0%Z /\
  airQualityScore null = 0%Z /\
  safetyScore (withAqi p undefined) =
    (temperatureScore p.(activity) p.(tempC) + windScore p.(activity) p.(windKmh)
     + precipitationScore p.(precipMm) p.(precipProb))%Z /\
  safetyScore (withAqi p null) = safetyScore (withAqi p undefined).
Proof.
  repeat split; try reflexivity.
  - rewrite !safetyScore_sum. unfold withAqi.
    cbn [activity tempC windKmh precipMm precipProb aqiUS].
    change (airQualityScore undefined) with 0%Z. lia.
  - intros H. unfold airQualityScore, addAirQuality. js_cases.
  - intros H. unfold airQualityScore, addAirQuality. js_cases.
  - intros H. unfold airQualityScore, addAirQuality. js_cases.
  - rewrite safetyScore_sum. unfold withAqi.
    cbn [activity tempC windKmh precipMm precipProb aqiUS].
    change (airQualityScore undefined) with 0%Z. lia.
Qed.

Lemma air_quality_additive_witness :
  (150 > 100) = true /\ airQualityScore (number 150) = 2%Z.
Proof.
  split; [reflexivity|].
  apply (proj1 (proj2 (proj2 (proj2
    (air_quality_additive (mkReading running 12 10 5 90 undefined None) 150))))).
  reflexivity.
Defined.

(** C5: [scoreToLevel s] is green (label "Ideal for outdoors") exactly when
    s <= 2, yellow ("Caution advised") exactly when 3 <= s <= 4, and red
    ("Not recommended") exactly when s >= 5. *)
Theorem scoreToLevel_thresholds (s : Z) :
  (scoreToLevel s = green <-> (s <= 2)%Z) /\
  (scoreToLevel s = yellow <-> (3 <= s <= 4)%Z) /\
  (scoreToLevel s = red <-> (s >= 5)%Z) /\
  levelLabel green = "Ideal for outdoors"%string /\
  levelLabel yellow = "Caution advised"%string /\
  levelLabel red = "Not recommended"%string.
Proof.
  unfold scoreToLevel.
  destruct (Z.leb_spec s 2), (Z.leb_spec s 4);
    repeat split; intros; try reflexivity; try discriminate; lia.
Qed.

(** C6: the total is between 0 and 8. *)
Theorem safetyScore_bounds (p : Reading) : (0 <= safetyScore p <= 8)%Z.
Proof.
  rewrite safetyScore_sum.
  pose proof (temperatureScore_range p.(activity) p.(tempC)).
  pose proof (windScore_range p.(activity) p.(windKmh)).
  pose proof (precipitationScore_range p.(precipMm) p.(precipProb)).
  pose proof (airQualityScore_range p.(aqiUS)).
  lia.
Qed.

(** C7: the five scenarios: totals 0, 4, 4, 4 and 8, levels green, yellow,
    yellow, yellow and red. *)
Theorem scenarios :
  (safetyScore scenario1 = 0%Z /\ scoreToLevel (safetyScore scenario1) = green) /\
  (safetyScore scenario2 = 4%Z /\ scoreToLevel (safetyScore scenario2) = yellow) /\
  (safetyScore scenario3 = 4%Z /\ scoreToLevel (safetyScore scenario3) = yellow) /\
  (safetyScore scenario4 = 4%Z /\ scoreToLevel (safetyScore scenario4) = yellow) /\
  (safetyScore scenario5 = 8%Z /\ scoreToLevel (safetyScore scenario5) = red).
Proof. repeat split; reflexivity. Qed.

(** C8: [scoreToLevel] is monotonic for green < yellow < red. *)
Theorem scoreToLevel_monotonic (s1 s2 : Z) :
  (s1 <= s2)%Z ->
  (severity (scoreToLevel s1) <= severity (scoreToLevel s2))%nat.
Proof.
  intros H. unfold scoreToLevel.
  destruct (Z.leb_spec s1 2), (Z.leb_spec s1 4),
           (Z.leb_spec s2 2), (Z.leb_spec s2 4); simpl; lia.
Qed.

Lemma scoreToLevel_monotonic_witness :
  (2 <= 5)%Z /\ (severity (scoreToLevel 2) <= severity (scoreToLevel 5))%nat.
Proof.
  split; [lia|]. apply (scoreToLevel_monotonic 2 5). lia.
Defined.

(** C9: the total and the level are a function of the six fields activity,
    tempC, windKmh, precipMm, precipProb and aqiUS: readings that agree on
    them (identical ones, or ones that differ in weatherCode only) get the
    same total and level. *)
Theorem safetyScore_deterministic (p q : Reading) :
  p.(activity) = q.(activity) -> p.(tempC) = q.(tempC) ->
  p.(windKmh) = q.(windKmh) -> p.(precipMm) = q.(precipMm) ->
  p.(precipProb) = q.(precipProb) -> p.(aqiUS) = q.(aqiUS) ->
  safetyScore p = safetyScore q /\
  scoreToLevel (safetyScore p) = scoreToLevel (safetyScore q).
Proof.
  intros Ha Ht Hw Hm Hp Hq.
  assert (E : safetyScore p = safetyScore q).
  { unfold safetyScore. now rewrite Ha, Ht, Hw, Hm, Hp, Hq. }
  split; [exact E|now rewrite E].
Qed.

Lemma safetyScore_deterministic_witness :
  safetyScore (mkReading cycling 35 40 4 100 (number 120) (Some 95%float)) =
    safetyScore (mkReading cycling 35 40 4 100 (number 120) None) /\
  scoreToLevel (safetyScore (mkReading cycling 35 40 4 100 (number 120) (Some 95%float))) =
    scoreToLevel (safetyScore (mkReading cycling 35 40 4 100 (number 120) None)).
Proof.
  apply (safetyScore_deterministic
           (mkReading cycling 35 40 4 100 (number 120) (Some 95%float))
           (mkReading cycling 35 40 4 100 (number 120) None)); reflexivity.
Defined.

End Totals.

(** ** Numbers the table does not name *)

Section Edges.

Local Open Scope js_scope.

(** Closes [(x > y) = true] for numbers that are not NaN and not [x <= y]. *)
Ltac js_total :=
  js_unfold;
  match goal with
  | H : PrimFloat.leb ?a ?b = false |- PrimFloat.ltb ?b ?a = true =>
      apply (not_le_gt a b); [assumption || reflexivity ..| exact H]
  end.

(** The three cases of each table cover every number other than NaN. *)
Lemma temperature_running_exhaustive t :
  Js.isNaN t = false ->
  ((7 <= t) = true /\ (t <= 18) = true) \/
  (((18 < t) = true /\ (t <= 26) = true) \/ ((-5 <= t) = true /\ (t < 7) = true)) \/
  ((t < -5) = true \/ (t > 26) = true).
Proof.
  intros N. js_unfold.
  destruct (PrimFloat.leb 7 t) eqn:E7.
  - destruct (PrimFloat.leb t 18) eqn:E18; [now left|].
    destruct (PrimFloat.leb t 26) eqn:E26.
    + right; left; left. split; [js_total|reflexivity].
    + right; right; right. js_total.
  - destruct (PrimFloat.leb (-5) t) eqn:E5.
    + right; left; right. split; [reflexivity|js_total].
    + right; right; left. js_total.
Qed.

Lemma temperature_cycling_exhaustive t :
  Js.isNaN t = false ->
  ((10 <= t) = true /\ (t <= 24) = true) \/
  (((24 < t) = true /\ (t <= 30) = true) \/ ((0 <= t) = true /\ (t < 10) = true)) \/
  ((t < 0) = true \/ (t > 30) = true).
Proof.
  intros N. js_unfold.
  destruct (PrimFloat.leb 10 t) eqn:E10.
  - destruct (PrimFloat.leb t 24) eqn:E24; [now left|].
    destruct (PrimFloat.leb t 30) eqn:E30.
    + right; left; left. split; [js_total|reflexivity].
    + right; right; right. js_total.
  - destruct (PrimFloat.leb 0 t) eqn:E0.
    + right; left; right. split; [reflexivity|js_total].
    + right; right; left. js_total.
Qed.

Lemma threshold_exhaustive lo hi w :
  Js.isNaN w = false -> Js.isNaN lo = false -> Js.isNaN hi = false ->
  (w <= lo) = true \/ ((lo < w) = true /\ (w <= hi) = true) \/ (w > hi) = true.
Proof.
  intros Nw Nlo Nhi. js_unfold.
  destruct (PrimFloat.leb w lo) eqn:E1; [now left|right].
  destruct (PrimFloat.leb w hi) eqn:E2.
  - left. split; [js_total|reflexivity].
  - right. js_total.
Qed.

(** One NaN given to every block: it fails every comparison, so the
    temperature, wind and air-quality blocks add 2, and the precipitation
    block, with both its fields NaN, adds nothing. *)
Lemma nan_branches (a : Activity) (x : float) (s : Z) :
  Js.isNaN x = true ->
  addTemperature a x s = (s + 2)%Z /\
  addWind a x s = (s + 2)%Z /\
  addPrecipitation x x s = s /\
  addAirQuality (number x) s = (s + 2)%Z.
Proof.
  intros N. unfold addTemperature, addWind, addPrecipitation, addAirQuality.
  js_unfold.
  rewrite ?(le_nan_l x), ?(le_nan_r _ x), ?(lt_nan_l x), ?(lt_nan_r _ x) by exact N.
  destruct a; repeat split; reflexivity.
Qed.

(** Out-of-range numbers are scored like any other number. *)
Example out_of_range :
  safetyScore (mkReading running 12 10 (-3) 0 undefined None) = 0%Z /\
  safetyScore (mkReading running 12 10 0 250 undefined None) = 1%Z /\
  safetyScore (mkReading running 12 10 0 (-20) undefined None) = 0%Z /\
  safetyScore (mkReading cycling infinity neg_infinity 0 0 (number (-1)) None) = 2%Z /\
  safetyScore (mkReading cycling nan nan nan nan (number nan) None) = 6%Z.
Proof. repeat split; reflexivity. Qed.

(** [weatherCode] is accepted and never read. *)
Lemma weatherCode_ignored (p : Reading) (w : option float) :
  safetyScore (withWeatherCode p w) = safetyScore p.
Proof. reflexivity. Qed.

(** Each of the six fields read by [safetyScore] can change the total. *)
Lemma every_field_matters :
  let p := mkReading running 12 10 0 0 (number 30) None in
  safetyScore (mkReading cycling 8 10 0 0 (number 30) None) <>
    safetyScore (mkReading running 8 10 0 0 (number 30) None) /\
  safetyScore (mkReading running 30 10 0 0 (number 30) None) <> safetyScore p /\
  safetyScore (mkReading running 12 30 0 0 (number 30) None) <> safetyScore p /\
  safetyScore (mkReading running 12 10 1 0 (number 30) None) <> safetyScore p /\
  safetyScore (mkReading running 12 10 0 50 (number 30) None) <> safetyScore p /\
  safetyScore (withAqi p (number 60)) <> safetyScore p.
Proof. repeat split; vm_compute; discriminate. Qed.

End Edges.

(** ** The integer accumulator *)

Section Accumulator.

Local Open Scope js_scope.

Ltac small_int s :=
  match goal with
  | H : (0 <= s <= ?n)%Z |- _ =>
      let E := fresh in
      assert (E : s = 0%Z \/ s = 1%Z \/ s = 2%Z \/ s = 3%Z \/ s = 4%Z \/
                  s = 5%Z \/ s = 6%Z \/ s = 7%Z \/ s = 8%Z) by lia;
      clear H; repeat (destruct E as [E|E]; [subst s|]); [..|subst s]
  end.

(** On the totals [safetyScore] can reach, [score += k] on numbers is integer
    addition, and the comparisons of [scoreToLevel] on numbers are the
    integer ones. *)
Lemma score_increment_exact s k :
  (0 <= s <= 6)%Z -> (0 <= k <= 2)%Z ->
  (numberOfInt s + numberOfInt k)%float = numberOfInt (s + k).
Proof.
  intros Hs Hk. small_int s; small_int k; solve [reflexivity | lia].
Qed.

Lemma scoreToLevel_compare_exact s :
  (0 <= s <= 8)%Z ->
  (numberOfInt s <= 2) = (s <=? 2)%Z /\ (numberOfInt s <= 4) = (s <=? 4)%Z.
Proof.
  intros Hs. small_int s; split; reflexivity.
Qed.

End Accumulator.

(** ** More order facts *)

Section MoreOrder.

Local Open Scope js_scope.

Ltac sf_split x :=
  let s := fresh "s" in
  destruct x as [s|s| |s ? ?]; try destruct s.

Ltac sf_decide :=
  repeat match goal with
  | |- context [Z.compare ?a ?b] =>
      destruct (Z.compare_spec a b); subst; simpl
  | |- context [Pos.compare_cont Eq ?a ?b] =>
      change (Pos.compare_cont Eq a b) with (Pos.compare a b);
      destruct (Pos.compare_spec a b); subst; simpl
  end;
  try congruence; try lia.

Lemma SFleb_trans x y z :
  SFleb x y = true -> SFleb y z = true -> SFleb x z = true.
Proof.
  unfold SFleb.
  sf_split x; sf_split y; sf_split z; simpl; try congruence; sf_decide.
Qed.

Lemma SFltb_SFleb x y : SFltb x y = true -> SFleb x y = true.
Proof.
  unfold SFltb, SFleb.
  sf_split x; sf_split y; simpl; try congruence; sf_decide.
Qed.

Lemma SFltb_irrefl x : SFltb x x = false.
Proof.
  unfold SFltb. sf_split x; simpl; try congruence; sf_decide.
Qed.

Lemma SFeqb_SFleb x y : SFeqb x y = true -> SFleb x y = true /\ SFleb y x = true.
Proof.
  unfold SFeqb, SFleb.
  sf_split x; sf_split y; simpl; try congruence; try (split; congruence); sf_decide.
  all: rewrite ?Z.compare_refl, ?Pos.compare_cont_refl; simpl; auto.
Qed.

Lemma le_trans x y z : (x <= y) = true -> (y <= z) = true -> (x <= z) = true.
Proof.
  unfold Js.le. rewrite !leb_spec. apply SFleb_trans.
Qed.

Lemma lt_le_incl x y : (x < y) = true -> (x <= y) = true.
Proof.
  unfold Js.lt, Js.le. rewrite ltb_spec, leb_spec. apply SFltb_SFleb.
Qed.

Lemma lt_irrefl x : (x < x) = false.
Proof.
  unfold Js.lt. rewrite ltb_spec. apply SFltb_irrefl.
Qed.

Lemma eqb_le x y : PrimFloat.eqb x y = true -> (x <= y) = true /\ (y <= x) = true.
Proof.
  unfold Js.le. rewrite eqb_spec, !leb_spec. apply SFeqb_SFleb.
Qed.

(** A number that compares true with anything is not NaN. *)
Lemma le_not_nan_l x y : (x <= y) = true -> Js.isNaN x = false.
Proof.
  intros H. destruct (Js.isNaN x) eqn:N; [|reflexivity].
  now rewrite (le_nan_l x y N) in H.
Qed.

Lemma le_not_nan_r x y : (x <= y) = true -> Js.isNaN y = false.
Proof.
  intros H. destruct (Js.isNaN y) eqn:N; [|reflexivity].
  now rewrite (le_nan_r x y N) in H.
Qed.

Lemma lt_not_nan_l x y : (x < y) = true -> Js.isNaN x = false.
Proof.
  intros H. destruct (Js.isNaN x) eqn:N; [|reflexivity].
  now rewrite (lt_nan_l x y N) in H.
Qed.

Lemma lt_not_nan_r x y : (x < y) = true -> Js.isNaN y = false.
Proof.
  intros H. destruct (Js.isNaN y) eqn:N; [|reflexivity].
  now rewrite (lt_nan_r x y N) in H.
Qed.

(** A number equal to one constant is not equal to a different one. *)
Lemma eqb_other x c d :
  PrimFloat.eqb c x = true -> PrimFloat.ltb c d || PrimFloat.ltb d c = true ->
  PrimFloat.eqb d x = false.
Proof.
  intros Hc Hd. destruct (PrimFloat.eqb d x) eqn:E; [|reflexivity].
  apply eqb_le in Hc, E. destruct Hc as [Hc1 Hc2], E as [E1 E2].
  apply orb_true_iff in Hd. destruct Hd as [Hd|Hd].
  - pose proof (le_trans _ _ _ E1 Hc2) as H.
    pose proof (lt_not_ge c d Hd) as F. unfold Js.ge, Js.le in *. congruence.
  - pose proof (le_trans _ _ _ Hc1 E2) as H.
    pose proof (lt_not_ge d c Hd) as F. unfold Js.ge, Js.le in *. congruence.
Qed.

End MoreOrder.

(** ** Worse weather never rates better *)

Section Monotone.

Local Open Scope js_scope.

(** Adds every comparison that follows by transitivity from the hypotheses. *)
Ltac js_saturate :=
  js_unfold;
  repeat match goal with
  | H1 : PrimFloat.leb ?a ?b = true, H2 : PrimFloat.leb ?b ?c = true |- _ =>
      lazymatch goal with
      | _ : PrimFloat.leb a c = true |- _ => fail
      | _ => assert (PrimFloat.leb a c = true) by exact (le_trans a b c H1 H2)
      end
  | H1 : PrimFloat.ltb ?a ?b = true, H2 : PrimFloat.leb ?b ?c = true |- _ =>
      lazymatch goal with
      | _ : PrimFloat.ltb a c = true |- _ => fail
      | _ => assert (PrimFloat.ltb a c = true) by exact (lt_le_trans a b c H1 H2)
      end
  | H1 : PrimFloat.leb ?a ?b = true, H2 : PrimFloat.ltb ?b ?c = true |- _ =>
      lazymatch goal with
      | _ : PrimFloat.ltb a c = true |- _ => fail
      | _ => assert (PrimFloat.ltb a c = true) by exact (le_lt_trans a b c H1 H2)
      end
  | H1 : PrimFloat.ltb ?a ?b = true, H2 : PrimFloat.ltb ?b ?c = true |- _ =>
      lazymatch goal with
      | _ : PrimFloat.ltb a c = true |- _ => fail
      | _ => assert (PrimFloat.ltb a c = true) by exact (lt_trans a b c H1 H2)
      end
  | H1 : PrimFloat.ltb ?a ?b = true |- _ =>
      lazymatch goal with
      | _ : PrimFloat.leb a b = true |- _ => fail
      | _ => assert (PrimFloat.leb a b = true) by exact (lt_le_incl a b H1)
      end
  end.

(** Proves that a number is not NaN: a constant, or one a hypothesis orders. *)
Ltac js_not_nan :=
  first
    [ reflexivity
    | match goal with
      | H : PrimFloat.leb ?x _ = true |- Js.isNaN ?x = false => exact (le_not_nan_l _ _ H)
      | H : PrimFloat.leb _ ?x = true |- Js.isNaN ?x = false => exact (le_not_nan_r _ _ H)
      | H : PrimFloat.ltb ?x _ = true |- Js.isNaN ?x = false => exact (lt_not_nan_l _ _ H)
      | H : PrimFloat.ltb _ ?x = true |- Js.isNaN ?x = false => exact (lt_not_nan_r _ _ H)
      end ].

(** Closes a goal whose comparisons are inconsistent. *)
Ltac js_chain :=
  js_saturate;
  match goal with
  | H1 : ?b = true, H2 : ?b = false |- _ => rewrite H1 in H2; discriminate H2
  | H : PrimFloat.ltb ?a ?a = true |- _ =>
      let F := fresh in
      pose proof (lt_irrefl a) as F; unfold Js.lt in F;
      rewrite F in H; discriminate H
  | H1 : PrimFloat.ltb ?a ?b = true, H2 : PrimFloat.leb ?b ?a = true |- _ =>
      let F := fresh in
      pose proof (lt_not_ge a b H1) as F; unfold Js.ge in F;
      rewrite F in H2; discriminate H2
  | H : PrimFloat.ltb ?a ?b = true |- _ => vm_compute in H; discriminate H
  | H : PrimFloat.leb ?a ?b = true |- _ => vm_compute in H; discriminate H
  | H1 : PrimFloat.leb ?a ?b = true, H3 : PrimFloat.leb ?a ?c = false |- _ =>
      let F := fresh in
      pose proof (le_trans a b c H1 eq_refl) as F; unfold Js.le in F;
      rewrite F in H3; discriminate H3
  | H1 : PrimFloat.leb ?a ?b = true, H3 : PrimFloat.leb ?c ?b = false |- _ =>
      let F := fresh in
      pose proof (le_trans c a b eq_refl H1) as F; unfold Js.le in F;
      rewrite F in H3; discriminate H3
  | H1 : PrimFloat.leb ?a ?b = false, H2 : PrimFloat.ltb ?b ?a = false |- _ =>
      let F := fresh in
      assert (F : Js.gt a b = true)
        by (apply (not_le_gt a b); [js_not_nan | js_not_nan | exact H1]);
      unfold Js.gt in F; rewrite F in H2; discriminate H2
  end.

Ltac js_compare :=
  js_unfold;
  repeat match goal with
  | |- context [PrimFloat.leb ?a ?b] => destruct (PrimFloat.leb a b) eqn:?; cbn [andb orb]
  | |- context [PrimFloat.ltb ?a ?b] => destruct (PrimFloat.ltb a b) eqn:?; cbn [andb orb]
  end;
  simpl; try discriminate; try lia; try js_chain.

(** Evaluates the comparisons between two constants. *)
Ltac js_constants :=
  js_unfold;
  repeat match goal with
  | |- context [PrimFloat.leb ?x ?y] =>
      let v := eval vm_compute in (PrimFloat.leb x y) in
      lazymatch v with
      | true => change (PrimFloat.leb x y) with true
      | false => change (PrimFloat.leb x y) with false
      end
  | |- context [PrimFloat.ltb ?x ?y] =>
      let v := eval vm_compute in (PrimFloat.ltb x y) in
      lazymatch v with
      | true => change (PrimFloat.ltb x y) with true
      | false => change (PrimFloat.ltb x y) with false
      end
  end;
  cbn [andb orb].

Lemma windScore_le a w1 w2 :
  (w1 <= w2) = true -> (windScore a w1 <= windScore a w2)%Z.
Proof.
  intros H. unfold windScore, addWind. destruct a; js_compare.
Qed.

Lemma precipitationScore_le mm1 prob1 mm2 prob2 :
  (mm1 <= mm2) = true -> (prob1 <= prob2) = true ->
  (precipitationScore mm1 prob1 <= precipitationScore mm2 prob2)%Z.
Proof.
  intros H1 H2. unfold precipitationScore, addPrecipitation. js_compare.
Qed.

Lemma airQualityScore_le a1 a2 :
  (a1 <= a2) = true ->
  (airQualityScore (number a1) <= airQualityScore (number a2))%Z.
Proof.
  intros H. unfold airQualityScore, addAirQuality. js_compare.
Qed.

Lemma scoreToLevel_le s1 s2 :
  (s1 <= s2)%Z -> (severity (scoreToLevel s1) <= severity (scoreToLevel s2))%nat.
Proof.
  intros H. unfold scoreToLevel.
  destruct (Z.leb_spec s1 2), (Z.leb_spec s1 4),
           (Z.leb_spec s2 2), (Z.leb_spec s2 4); simpl; lia.
Qed.

(** X1: for one activity and one temperature, a reading with no less wind, no
    less precipitation (amount and probability) and no better air quality
    gets no smaller a total and no milder a level. *)
Theorem worse_weather_never_better (p q : Reading) :
  p.(activity) = q.(activity) -> p.(tempC) = q.(tempC) ->
  (p.(windKmh) <= q.(windKmh)) = true ->
  (p.(precipMm) <= q.(precipMm)) = true ->
  (p.(precipProb) <= q.(precipProb)) = true ->
  aqiNoWorse p.(aqiUS) q.(aqiUS) = true ->
  (safetyScore p <= safetyScore q)%Z /\
  (severity (scoreToLevel (safetyScore p)) <=
   severity (scoreToLevel (safetyScore q)))%nat.
Proof.
  intros Ha Ht Hw Hm Hp Hq.
  assert (L : (safetyScore p <= safetyScore q)%Z).
  { rewrite !safetyScore_sum, Ha, Ht.
    pose proof (windScore_le q.(activity) _ _ Hw).
    pose proof (precipitationScore_le _ _ _ _ Hm Hp).
    assert (airQualityScore p.(aqiUS) <= airQualityScore q.(aqiUS))%Z.
    { destruct (aqiUS p) as [| |a1], (aqiUS q) as [| |a2]; simpl in Hq;
        try discriminate; try apply airQualityScore_range;
        try (now apply airQualityScore_le). }
    lia. }
  split; [exact L|now apply scoreToLevel_le].
Qed.

Lemma worse_weather_never_better_witness :
  (safetyScore (mkReading cycling 15 10 0 20 undefined None) <=
   safetyScore (mkReading cycling 15 35 2 60 (number 80) None))%Z /\
  (severity (scoreToLevel (safetyScore (mkReading cycling 15 10 0 20 undefined None))) <=
   severity (scoreToLevel (safetyScore (mkReading cycling 15 35 2 60 (number 80) None))))%nat.
Proof.
  apply (worse_weather_never_better
           (mkReading cycling 15 10 0 20 undefined None)
           (mkReading cycling 15 35 2 60 (number 80) None)); reflexivity.
Defined.

(** X2: the temperature sub-score never drops when the temperature moves away
    from the ideal band: upwards from its lower end, downwards from its
    upper end (7 and 18 for running, 10 and 24 for cycling). *)
Theorem temperature_away_from_band (t1 t2 : float) :
  (t1 <= t2) = true ->
  ((7 <= t1) = true -> (temperatureScore running t1 <= temperatureScore running t2)%Z) /\
  ((t2 <= 18) = true -> (temperatureScore running t2 <= temperatureScore running t1)%Z) /\
  ((10 <= t1) = true -> (temperatureScore cycling t1 <= temperatureScore cycling t2)%Z) /\
  ((t2 <= 24) = true -> (temperatureScore cycling t2 <= temperatureScore cycling t1)%Z).
Proof.
  intros H. unfold temperatureScore, addTemperature.
  repeat split; intros B; js_compare.
Qed.

Lemma temperature_away_from_band_witness :
  (20 <= 28) = true /\ (7 <= 20) = true /\
  (temperatureScore running 20 <= temperatureScore running 28)%Z.
Proof.
  split; [reflexivity|]. split; [reflexivity|].
  apply (proj1 (temperature_away_from_band 20 28 eq_refl)). reflexivity.
Defined.

(** X3: at any wind speed the wind sub-score for cycling is at least the one for
    running. *)
Theorem cycling_wind_stricter (w : float) :
  (windScore running w <= windScore cycling w)%Z.
Proof.
  unfold windScore, addWind. js_compare.
Qed.

(** C10: evaluation has no error path and no validation.  Every reading
    gets a total from 0 to 8 and one of the three levels, and a number out
    of range is scored by the branch the table has for it, like any other
    number: a negative amount or probability like 0, a probability above
    100 like 100, a negative wind like no wind, and a temperature beyond
    the outermost thresholds like an infinite one. *)
Theorem evaluation_total (p : Reading) :
  (0 <= safetyScore p <= 8)%Z /\
  (scoreToLevel (safetyScore p) = green \/
   scoreToLevel (safetyScore p) = yellow \/
   scoreToLevel (safetyScore p) = red) /\
  ((p.(precipMm) < 0) = true -> safetyScore p = safetyScore (withPrecipMm p 0)) /\
  ((p.(precipProb) < 0) = true -> safetyScore p = safetyScore (withPrecipProb p 0)) /\
  ((p.(precipProb) > 100) = true ->
   safetyScore p = safetyScore (withPrecipProb p 100)) /\
  ((p.(windKmh) < 0) = true -> safetyScore p = safetyScore (withWindKmh p 0)) /\
  ((p.(tempC) > 30) = true -> safetyScore p = safetyScore (withTempC p infinity)) /\
  ((p.(tempC) < -5) = true ->
   safetyScore p = safetyScore (withTempC p neg_infinity)).
Proof.
  split; [|split].
  - rewrite safetyScore_sum.
    pose proof (temperatureScore_range p.(activity) p.(tempC)).
    pose proof (windScore_range p.(activity) p.(windKmh)).
    pose proof (precipitationScore_range p.(precipMm) p.(precipProb)).
    pose proof (airQualityScore_range p.(aqiUS)).
    lia.
  - destruct (scoreToLevel (safetyScore p)); auto.
  - rewrite !safetyScore_sum.
    unfold withPrecipMm, withPrecipProb, withWindKmh, withTempC.
    cbn [activity tempC windKmh precipMm precipProb aqiUS].
    repeat split; intros H.
    + assert (E : precipitationScore (precipMm p) (precipProb p) =
                  precipitationScore 0 (precipProb p))
        by (unfold precipitationScore, addPrecipitation; js_constants; js_compare).
      rewrite E. reflexivity.
    + assert (E : precipitationScore (precipMm p) (precipProb p) =
                  precipitationScore (precipMm p) 0)
        by (unfold precipitationScore, addPrecipitation; js_constants; js_compare).
      rewrite E. reflexivity.
    + assert (E : precipitationScore (precipMm p) (precipProb p) =
                  precipitationScore (precipMm p) 100)
        by (unfold precipitationScore, addPrecipitation; js_constants; js_compare).
      rewrite E. reflexivity.
    + assert (E : windScore (activity p) (windKmh p) = windScore (activity p) 0)
        by (unfold windScore, addWind; destruct (activity p);
            js_constants; js_compare).
      rewrite E. reflexivity.
    + assert (E : temperatureScore (activity p) (tempC p) =
                  temperatureScore (activity p) infinity)
        by (unfold temperatureScore, addTemperature; destruct (activity p);
            js_constants; js_compare).
      rewrite E. reflexivity.
    + assert (E : temperatureScore (activity p) (tempC p) =
                  temperatureScore (activity p) neg_infinity)
        by (unfold temperatureScore, addTemperature; destruct (activity p);
            js_constants; js_compare).
      rewrite E. reflexivity.
Qed.

Lemma evaluation_total_witness :
  ((-3) < 0) = true /\
  safetyScore (mkReading cycling 15 10 (-3) 20 undefined None) =
    safetyScore (withPrecipMm (mkReading cycling 15 10 (-3) 20 undefined None) 0).
Proof.
  split; [reflexivity|].
  apply (proj1 (proj2 (proj2
    (evaluation_total (mkReading cycling 15 10 (-3) 20 undefined None))))).
  reflexivity.
Defined.

End Monotone.

(** ** How many factors a level takes *)

Section Factors.

(** X4: a level other than green takes at least two sub-scores that are not 0,
    and red takes at least three: one bad factor alone, however bad, is
    rated green. *)
Theorem level_needs_several_factors (p : Reading) :
  (scoreToLevel (safetyScore p) <> green -> (2 <= factorsNotIdeal p)%Z) /\
  (scoreToLevel (safetyScore p) = red -> (3 <= factorsNotIdeal p)%Z).
Proof.
  pose proof (temperatureScore_range p.(activity) p.(tempC)).
  pose proof (windScore_range p.(activity) p.(windKmh)).
  pose proof (precipitationScore_range p.(precipMm) p.(precipProb)).
  pose proof (airQualityScore_range p.(aqiUS)).
  rewrite safetyScore_sum. unfold factorsNotIdeal, scoreToLevel.
  destruct (Z.eqb_spec (temperatureScore p.(activity) p.(tempC)) 0),
           (Z.eqb_spec (windScore p.(activity) p.(windKmh)) 0),
           (Z.eqb_spec (precipitationScore p.(precipMm) p.(precipProb)) 0),
           (Z.eqb_spec (airQualityScore p.(aqiUS)) 0);
    split; intros L;
    repeat match type of L with
    | context [(?a <=? ?b)%Z] => destruct (Z.leb_spec a b)
    end; try discriminate; try lia; try (exfalso; apply L; reflexivity).
Qed.

Lemma level_needs_several_factors_witness :
  scoreToLevel (safetyScore scenario5) = red /\ (3 <= factorsNotIdeal scenario5)%Z.
Proof.
  split; [reflexivity|].
  apply (proj2 (level_needs_several_factors scenario5)). reflexivity.
Defined.

End Factors.

(** ** The forecast window *)

Section Window.

Variable getTime : string -> float.
Variable now : float.

Lemma index_past_end {A : Type} (a : list A) (k : Z) :
  (Z.of_nat (length a) <= k)%Z -> index a k = None.
Proof.
  intros H. unfold index.
  destruct (Z.ltb_spec k 0); [reflexivity|].
  apply nth_error_None. lia.
Qed.

Lemma indexNumber_past_end (a : list OptNumber) (k : Z) :
  (Z.of_nat (length a) <= k)%Z -> indexNumber a k = undefined.
Proof.
  intros H. unfold indexNumber. now rewrite index_past_end.
Qed.

Lemma findIndexFrom_spec {A : Type} (f : A -> bool) (l : list A) (i : Z) :
  (findIndexFrom f l i = (-1)%Z /\ forall x, In x l -> f x = false) \/
  (exists x, (i <= findIndexFrom f l i)%Z /\
     nth_error l (Z.to_nat (findIndexFrom f l i - i)) = Some x /\ f x = true /\
     forall n y, (n < Z.to_nat (findIndexFrom f l i - i))%nat ->
       nth_error l n = Some y -> f y = false).
Proof.
  revert i. induction l as [|a l IH]; intros i; simpl.
  - left. split; [reflexivity|]. intros x [].
  - destruct (f a) eqn:Fa.
    + right. exists a. rewrite Z.sub_diag. simpl.
      repeat split; auto; try lia.
    + destruct (IH (i + 1)%Z) as [[E N]|[x [Hi [Hx [Fx Hb]]]]].
      * left. split; [exact E|]. intros x [<-|Hx]; auto.
      * right. exists x.
        replace (Z.to_nat (findIndexFrom f l (i + 1) - i))
          with (S (Z.to_nat (findIndexFrom f l (i + 1) - (i + 1)))) by lia.
        simpl. repeat split; auto; try lia.
        intros [|n] y Hn Hy; simpl in Hy.
        -- now inversion Hy; subst.
        -- apply (Hb n y); [lia|exact Hy].
Qed.

(** X6: the window of [fetchForecast] always holds twelve cards, whatever the
    response holds: [filter(Boolean)] drops none. *)
Theorem next12_length (times : list string) (tC pr prp wind codes : list OptNumber) :
  length (next12 getTime now times tC pr prp wind codes) = 12%nat.
Proof.
  unfold next12.
  rewrite forallb_filter_id; [now rewrite length_map, length_seq|].
  apply forallb_forall. reflexivity.
Qed.

(** X7: the window starts at the first time stamp that is at most 30 minutes
    old; when no time stamp is that recent (or there is none) it starts at
    the first entry. *)
Theorem window_start (times : list string) :
  ((forall t, In t times -> isRecent getTime now t = false) /\
   start getTime now times = 0%Z) \/
  (exists t, index times (start getTime now times) = Some t /\
     isRecent getTime now t = true /\
     forall k t', (0 <= k < start getTime now times)%Z ->
       index times k = Some t' -> isRecent getTime now t' = false).
Proof.
  unfold start, idxNow, findIndex.
  destruct (findIndexFrom_spec (isRecent getTime now) times 0)
    as [[E N]|[x [Hi [Hx [Fx Hb]]]]].
  - left. rewrite E. split; [exact N|reflexivity].
  - right. exists x. rewrite Z.sub_0_r in Hx, Hb.
    rewrite Z.max_r by lia.
    split; [|split; [exact Fx|]].
    + unfold index. destruct (Z.ltb_spec (findIndexFrom (isRecent getTime now) times 0) 0);
        [lia|exact Hx].
    + intros k t' Hk. unfold index.
      destruct (Z.ltb_spec k 0); [lia|]. intros Ht'.
      apply (Hb (Z.to_nat k) t'); [lia|exact Ht'].
Qed.

End Window.

(** ** Cards, air quality and the current rating *)

Section Cards.

(** X8: a card whose index lies past the end of the response (no time stamp, no
    temperature, wind or precipitation) is still rated: NaN temperature and
    wind add 2 each, so its total is 4 and its level yellow, for either
    activity. *)
Theorem slot_past_data_is_yellow (a : Activity) (perHour : AqiMap)
    (times : list string) (tC pr prp wind codes : list OptNumber) (k : Z) :
  (Z.of_nat (length times) <= k)%Z -> (Z.of_nat (length tC) <= k)%Z ->
  (Z.of_nat (length pr) <= k)%Z -> (Z.of_nat (length prp) <= k)%Z ->
  (Z.of_nat (length wind) <= k)%Z ->
  getKey perHour "undefined" = undefined ->
  safetyScore (hourReading a (blendHour perHour (hourAt times tC pr prp wind codes k))) = 4%Z /\
  hourLevel a (blendHour perHour (hourAt times tC pr prp wind codes k)) = yellow.
Proof.
  intros Ht HtC Hpr Hprp Hw Hk.
  unfold hourLevel, hourReading, blendHour, hourAt. cbn [HourPoint.time
    HourPoint.tempC HourPoint.precipMm HourPoint.precipProb HourPoint.windKmh
    HourPoint.weatherCode HourPoint.aqiUS].
  rewrite (index_past_end times k Ht), !indexNumber_past_end by assumption.
  unfold readKey. cbn [propertyKey]. rewrite Hk.
  destruct a; split; reflexivity.
Qed.

Lemma slot_past_data_is_yellow_witness :
  safetyScore (hourReading running (blendHour [] (hourAt [] [] [] [] [] [] 0))) = 4%Z /\
  hourLevel running (blendHour [] (hourAt [] [] [] [] [] [] 0)) = yellow.
Proof.
  apply (slot_past_data_is_yellow running [] [] [] [] [] [] [] 0);
    solve [simpl; lia | reflexivity].
Defined.

Lemma index_nth_error {A : Type} (a : list A) (j : nat) :
  index a (Z.of_nat j) = nth_error a j.
Proof.
  unfold index. destruct (Z.ltb_spec (Z.of_nat j) 0); [lia|].
  now rewrite Nat2Z.id.
Qed.

Lemma index_some_nat {A : Type} (a : list A) (i : Z) (x : A) :
  index a i = Some x -> exists j, i = Z.of_nat j /\ nth_error a j = Some x.
Proof.
  unfold index. destruct (Z.ltb_spec i 0) as [Hi|Hi]; [discriminate|].
  intros Hx. exists (Z.to_nat i). split; [lia|exact Hx].
Qed.

Lemma getKey_setKey (out : AqiMap) (t' t : string) (v : float) :
  getKey (setKey out t' v) t =
    if String.eqb t' "__proto__" then getKey out t
    else if String.eqb t' t then number v else getKey out t.
Proof. unfold setKey. now destruct (String.eqb t' "__proto__"). Qed.

Lemma getKey_not_null (m : AqiMap) (t : string) : getKey m t <> null.
Proof.
  induction m as [|[k v] m IH]; simpl; [discriminate|].
  destruct (String.eqb k t); [discriminate|exact IH].
Qed.

Lemma recordAqi_sound (aqi : list OptNumber) (l : list string) (t : string) :
  forall (i : Z) (out : AqiMap) (v : float),
    getKey (forEachFrom (recordAqi aqi) l i out) t = number v ->
    getKey out t = number v \/
    exists j, nth_error l j = Some t /\ indexNumber aqi (i + Z.of_nat j) = number v.
Proof.
  induction l as [|x l IH]; intros i out v H; simpl in H; [now left|].
  destruct (IH _ _ _ H) as [H0|[j [Hj Hv]]].
  - unfold recordAqi in H0. destruct (indexNumber aqi i) as [| |w] eqn:E; auto.
    rewrite getKey_setKey in H0.
    destruct (String.eqb x "__proto__"); auto.
    destruct (String.eqb_spec x t) as [->|N]; auto.
    right. exists 0%nat. rewrite Z.add_0_r. split; [reflexivity|]. congruence.
  - right. exists (S j). split; [exact Hj|].
    now replace (i + Z.of_nat (S j))%Z with (i + 1 + Z.of_nat j)%Z by lia.
Qed.

Lemma recordAqi_keeps (aqi : list OptNumber) (l : list string) (t : string) :
  forall (i : Z) (out : AqiMap),
    (exists v, getKey out t = number v) ->
    exists v, getKey (forEachFrom (recordAqi aqi) l i out) t = number v.
Proof.
  induction l as [|x l IH]; intros i out [v Hv]; simpl; [now exists v|].
  apply IH. unfold recordAqi. destruct (indexNumber aqi i) as [| |w]; eauto.
  rewrite getKey_setKey. destruct (String.eqb x "__proto__"); eauto.
  destruct (String.eqb x t); eauto.
Qed.

Lemma recordAqi_complete (aqi : list OptNumber) (l : list string) (t : string) :
  t <> "__proto__"%string ->
  forall (i : Z) (out : AqiMap) (j : nat) (w : float),
    nth_error l j = Some t -> indexNumber aqi (i + Z.of_nat j) = number w ->
    exists v, getKey (forEachFrom (recordAqi aqi) l i out) t = number v.
Proof.
  intros P. induction l as [|x l IH]; intros i out j w Hj Hw; [now destruct j|].
  destruct j as [|j]; simpl in Hj |- *.
  - inversion Hj; subst x. rewrite Z.add_0_r in Hw.
    apply recordAqi_keeps. unfold recordAqi. rewrite Hw, getKey_setKey.
    destruct (String.eqb_spec t "__proto__") as [E|_]; [contradiction|].
    rewrite String.eqb_refl. eauto.
  - apply (IH (i + 1)%Z _ j w Hj).
    now replace (i + 1 + Z.of_nat j)%Z with (i + Z.of_nat (S j))%Z by lia.
Qed.

Lemma readKey_number (m : AqiMap) (t : string) (v : float) :
  readKey m t = jsNumber v <->
  t <> "__proto__"%string /\ getKey m t = number v.
Proof.
  unfold readKey. destruct (String.eqb_spec t "__proto__") as [E|N].
  - split; [discriminate|]. intros [C _]. contradiction.
  - destruct (getKey m t) as [| |w].
    + destruct (existsb (String.eqb t) inheritedMethods);
        (split; [discriminate|intros [_ C]; discriminate]).
    + destruct (existsb (String.eqb t) inheritedMethods);
        (split; [discriminate|intros [_ C]; discriminate]).
    + split.
      * intros C. inversion C. now split.
      * intros [_ C]. now inversion C.
Qed.

Lemma readKey_not_null (m : AqiMap) (t : string) : readKey m t <> jsNull.
Proof.
  unfold readKey. destruct (String.eqb t "__proto__"); [discriminate|].
  destruct (getKey m t); try discriminate;
    destruct (existsb (String.eqb t) inheritedMethods); discriminate.
Qed.

(** The table of a response: its own property for a time stamp is one of
    the response's numeric indexes for that time stamp. *)
Lemma perHourAQI_own (times : list string) (aqi : list OptNumber) (t : string)
    (v : float) :
  getKey (perHourAQI times aqi) t = number v ->
  exists i, index times i = Some t /\ indexNumber aqi i = number v.
Proof.
  unfold perHourAQI, forEach. intros H.
  destruct (recordAqi_sound _ _ _ _ _ _ H) as [H0|[j [Hj Hv]]]; [discriminate|].
  exists (Z.of_nat j). unfold index.
  destruct (Z.ltb_spec (Z.of_nat j) 0); [lia|]. now rewrite Nat2Z.id.
Qed.

(** X9: reading the per-hour table at a time stamp gives a number exactly
    when the time stamp is not ["__proto__"] and the response pairs it with
    a numeric index; the number is one of those indexes.  [null] or missing
    indexes are never stored, and ["__proto__"] always reads as the
    prototype object. *)
Theorem perHourAQI_lookup (times : list string) (aqi : list OptNumber) (t : string) :
  (forall v, readKey (perHourAQI times aqi) t = jsNumber v ->
     t <> "__proto__"%string /\
     exists i, index times i = Some t /\ indexNumber aqi i = number v) /\
  (t <> "__proto__"%string ->
   (exists i v, index times i = Some t /\ indexNumber aqi i = number v) ->
   exists v, readKey (perHourAQI times aqi) t = jsNumber v) /\
  ((forall i v, index times i = Some t -> indexNumber aqi i <> number v) ->
   readKey (perHourAQI times aqi) t = jsUndefined \/
   readKey (perHourAQI times aqi) t = jsObject) /\
  readKey (perHourAQI times aqi) "__proto__" = jsObject.
Proof.
  repeat split.
  - now apply readKey_number in H.
  - apply readKey_number in H. now apply perHourAQI_own.
  - intros P [i [v [Hi Hv]]]. destruct (index_some_nat _ _ _ Hi) as [j [-> Hj]].
    destruct (recordAqi_complete aqi times t P 0 [] j v Hj Hv) as [w Hw].
    exists w. apply readKey_number. now split.
  - intros N.
    destruct (readKey (perHourAQI times aqi) t) as [| |v|] eqn:E; auto.
    + now apply readKey_not_null in E.
    + apply readKey_number in E. destruct E as [_ E].
      destruct (perHourAQI_own _ _ _ _ E) as [i [Hi Hv]].
      exfalso. exact (N i v Hi Hv).
Qed.

Lemma perHourAQI_lookup_witness :
  exists v,
    readKey (perHourAQI ["09:00"; "10:00"]%string [null; number 42]) "10:00" = jsNumber v.
Proof.
  apply (proj1 (proj2 (perHourAQI_lookup ["09:00"; "10:00"]%string [null; number 42] "10:00"))).
  - discriminate.
  - exists 1%Z, 42%float. split; reflexivity.
Defined.

End Cards.

Section CardTotals.

Local Open Scope js_scope.

(** X10: the total of a forecast card is the temperature, wind and
    precipitation sub-scores plus the air-quality sub-score of what the
    table reads at the card's time stamp; when the response has no numeric
    index for that time stamp, or the time stamp is ["__proto__"], the
    blend stores no number and the total is the three weather sub-scores. *)
Theorem card_total_with_aqi (a : Activity) (times : list string)
    (aqi : list OptNumber) (h : HourPoint.t) :
  let card := blendHour (perHourAQI times aqi) h in
  let key := propertyKey h.(HourPoint.time) in
  let weather :=
    (temperatureScore a (toNumber h.(HourPoint.tempC))
     + windScore a (toNumber h.(HourPoint.windKmh))
     + precipitationScore (toNumber h.(HourPoint.precipMm))
                          (toNumber h.(HourPoint.precipProb)))%Z in
  safetyScore (hourReading a card) =
    (weather + airQualityScore
                 (aqiArgument (readKey (perHourAQI times aqi) key)))%Z /\
  ((forall i v, index times i = Some key -> indexNumber aqi i <> number v) ->
   safetyScore (hourReading a card) = weather) /\
  (key = "__proto__"%string -> safetyScore (hourReading a card) = weather).
Proof.
  cbv zeta.
  set (key := propertyKey (HourPoint.time h)).
  set (weather := (temperatureScore a (toNumber h.(HourPoint.tempC))
     + windScore a (toNumber h.(HourPoint.windKmh))
     + precipitationScore (toNumber h.(HourPoint.precipMm))
                          (toNumber h.(HourPoint.precipProb)))%Z).
  assert (E : safetyScore (hourReading a (blendHour (perHourAQI times aqi) h)) =
    (weather + airQualityScore
                 (aqiArgument (readKey (perHourAQI times aqi) key)))%Z).
  { rewrite safetyScore_sum. unfold hourReading, blendHour.
    cbn [activity tempC windKmh precipMm precipProb aqiUS HourPoint.time
         HourPoint.tempC HourPoint.precipMm HourPoint.precipProb
         HourPoint.windKmh HourPoint.weatherCode HourPoint.aqiUS].
    fold key. fold weather.
    destruct (readKey (perHourAQI times aqi) key); reflexivity. }
  split; [exact E|]. rewrite E. split.
  - intros N.
    destruct (readKey (perHourAQI times aqi) key) as [| |v|] eqn:R;
      try (change (airQualityScore (aqiArgument jsUndefined)) with 0%Z; lia);
      try (change (airQualityScore (aqiArgument jsObject)) with 0%Z; lia).
    + now apply readKey_not_null in R.
    + apply readKey_number in R. destruct R as [_ R].
      destruct (perHourAQI_own _ _ _ _ R) as [i [Hi Hv]].
      exfalso. exact (N i v Hi Hv).
  - intros P. rewrite P.
    change (readKey (perHourAQI times aqi) "__proto__") with jsObject.
    change (airQualityScore (aqiArgument jsObject)) with 0%Z. lia.
Qed.

Lemma card_total_with_aqi_witness :
  safetyScore (hourReading running
    (blendHour (perHourAQI ["09:00"%string] [null])
       (HourPoint.mk (Some "09:00"%string) (number 12) (number 0) (number 0)
                     (number 10) (number 0) jsUndefined))) = (0 + 0 + 0)%Z.
Proof.
  apply (proj1 (proj2 (card_total_with_aqi running ["09:00"%string] [null]
    (HourPoint.mk (Some "09:00"%string) (number 12) (number 0) (number 0)
                  (number 10) (number 0) jsUndefined)))).
  intros i v Hi. destruct (index_some_nat _ _ _ Hi) as [[|[|j]] [-> Hj]];
    simpl in Hj; discriminate.
Defined.

(** X11: the current rating takes its precipitation from the first forecast
    card: its precipitation sub-score is that card's, also when the card's
    amount or probability is missing, and 0 when there is no card. *)
Theorem current_precipitation_from_first_card (a : Activity)
    (c : CurrentWeather.t) (h : HourPoint.t) (rest : list HourPoint.t) :
  precipitationScore (currentReading a c (h :: rest)).(precipMm)
                     (currentReading a c (h :: rest)).(precipProb) =
    precipitationScore (hourReading a h).(precipMm) (hourReading a h).(precipProb) /\
  precipitationScore (currentReading a c []).(precipMm)
                     (currentReading a c []).(precipProb) = 0%Z.
Proof.
  split; [|reflexivity].
  unfold currentReading, hourReading, firstHour.
  cbn [precipMm precipProb index Z.ltb Z.compare Z.to_nat nth_error].
  unfold precipitationScore, addPrecipitation.
  destruct (HourPoint.precipMm h) as [| |mm], (HourPoint.precipProb h) as [| |prob];
    cbn [nullish toNumber]; js_unfold;
    repeat match goal with
    | |- context [PrimFloat.leb ?x ?y] =>
        first [ is_var y; fail 1
              | let v := eval vm_compute in (PrimFloat.leb x y) in
                change (PrimFloat.leb x y) with v ]
    end; reflexivity.
Qed.

End CardTotals.

(** ** The current air-quality index *)

Section Nearest.

Local Open Scope js_scope.

Variable getTime : string -> float.
Variable now : float.
Variable aqi : list OptNumber.

Local Abbreviation diff := (diffOf getTime now).
Local Abbreviation step := (nearer getTime now aqi).

Lemma lt_false_of_lt (d m m' : float) :
  (d < m) = false -> (m' < m) = true -> (d < m') = false.
Proof.
  intros H1 H2. destruct (d < m') eqn:E; [|reflexivity].
  now rewrite (lt_trans _ _ _ E H2) in H1.
Qed.

Lemma le_false_of_lt (d m m' : float) :
  (d < m) = false -> (m' < m) = true -> (d <= m') = false.
Proof.
  intros H1 H2. destruct (d <= m') eqn:E; [|reflexivity].
  now rewrite (le_lt_trans _ _ _ E H2) in H1.
Qed.

Lemma nearest_from (l : list string) :
  forall (i : Z) (m : float) (c : OptNumber),
    let r := forEachFrom step l i (m, c) in
    (forall t, In t l -> (diff t < fst r) = false) /\
    ((r = (m, c)) \/
     (exists j t, nth_error l j = Some t /\ diff t = fst r /\
        snd r = indexNumber aqi (i + Z.of_nat j) /\ (fst r < m) = true /\
        forall j' t', (j' < j)%nat -> nth_error l j' = Some t' ->
          (diff t' <= fst r) = false)).
Proof.
  induction l as [|x l IH]; intros i m c; cbv zeta.
  - split; [intros t []|now left].
  - cbn [forEachFrom].
    destruct (diff x < m) eqn:D.
    + assert (E : step (m, c) x i = (diff x, indexNumber aqi i))
        by (unfold nearer; now rewrite D).
      rewrite E. clear E.
      destruct (IH (i + 1)%Z (diff x) (indexNumber aqi i)) as [A B]. cbv zeta in A, B.
      set (r := forEachFrom step l (i + 1) (diff x, indexNumber aqi i)) in *.
      destruct B as [B|[j [t [Hj [Ht [Hc [Hlt Hb]]]]]]].
      * rewrite B in *. cbn [fst snd] in *. split.
        -- intros t [<-|Ht]; [apply lt_irrefl|now apply A].
        -- right. exists 0%nat, x. rewrite Z.add_0_r.
           repeat split; auto. intros j' t' Hj'. lia.
      * split.
        -- intros t' [<-|Ht']; [|now apply A].
           destruct (diff x < fst r) eqn:E; [|reflexivity].
           pose proof (lt_trans _ _ _ E Hlt) as F. now rewrite lt_irrefl in F.
        -- right. exists (S j), t. repeat split; auto.
           ++ rewrite Hc. f_equal. lia.
           ++ exact (lt_trans _ _ _ Hlt D).
           ++ intros [|j'] t' Hj' Ht'; simpl in Ht'.
              ** inversion Ht'; subst t'. exact (lt_not_ge _ _ Hlt).
              ** apply (Hb j' t'); [lia|exact Ht'].
    + assert (E : step (m, c) x i = (m, c)) by (unfold nearer; now rewrite D).
      rewrite E. clear E.
      destruct (IH (i + 1)%Z m c) as [A B]. cbv zeta in A, B.
      set (r := forEachFrom step l (i + 1) (m, c)) in *.
      destruct B as [B|[j [t [Hj [Ht [Hc [Hlt Hb]]]]]]].
      * rewrite B in *. cbn [fst snd] in *. split; [|now left].
        intros t [<-|Ht]; [exact D|now apply A].
      * split.
        -- intros t' [<-|Ht']; [|now apply A].
           exact (lt_false_of_lt _ _ _ D Hlt).
        -- right. exists (S j), t. repeat split; auto.
           ++ rewrite Hc. f_equal. lia.
           ++ intros [|j'] t' Hj' Ht'; simpl in Ht'.
              ** inversion Ht'; subst t'. exact (le_false_of_lt _ _ _ D Hlt).
              ** apply (Hb j' t'); [lia|exact Ht'].
Qed.

(** X12: the current index is taken at a time stamp nearest to now: no time
    stamp of the response is strictly nearer, and every earlier one is
    strictly farther (or not a date).  With no time stamp at a finite
    distance, it is [null]. *)
Theorem nearest_is_minimal (times : list string) :
  (forall t, In t times -> (diff t < fst (nearest getTime now times aqi)) = false) /\
  ((fst (nearest getTime now times aqi) = infinity /\
    currentAQI getTime now times aqi = null) \/
   (exists i t, index times i = Some t /\
      diff t = fst (nearest getTime now times aqi) /\
      currentAQI getTime now times aqi = indexNumber aqi i /\
      forall k t', (0 <= k < i)%Z -> index times k = Some t' ->
        (diff t' <= diff t) = false)).
Proof.
  unfold currentAQI, nearest, forEach.
  destruct (nearest_from times 0 infinity null) as [A B]. cbv zeta in A, B.
  split; [exact A|].
  destruct B as [B|[j [t [Hj [Ht [Hc [Hlt Hb]]]]]]].
  - left. now rewrite B.
  - right. exists (Z.of_nat j), t. rewrite index_nth_error.
    repeat split; auto. intros k t' Hk Hk'.
    destruct (index_some_nat _ _ _ Hk') as [j' [-> Hj']].
    rewrite Ht. apply (Hb j' t'); [lia|exact Hj'].
Qed.

End Nearest.

(** ** Icons, hour labels and level styles *)

Section Presentation.

Lemma includes_numbers (l : list float) (code : float) :
  forallb (fun d => negb (PrimFloat.is_nan d)) l = true ->
  includes l code = existsb (fun d => PrimFloat.eqb d code) l.
Proof.
  unfold includes. induction l as [|d l IH]; simpl; [reflexivity|].
  intros H. apply andb_true_iff in H. destruct H as [Hd Hl].
  rewrite (IH Hl). unfold sameValueZero.
  apply negb_true_iff in Hd. rewrite Hd. simpl. now rewrite orb_false_r.
Qed.

(** Rewrites every test of [code] against a constant, knowing the one
    constant [c] that [code] equals. *)
Ltac emoji_pick code c H :=
  repeat match goal with
  | |- context [PrimFloat.eqb ?d code] =>
      first [ rewrite H | rewrite (eqb_other code c d H eq_refl) ]
  end;
  reflexivity.

Ltac emoji_group H :=
  rewrite includes_numbers in H by reflexivity;
  unfold weatherEmoji;
  rewrite !includes_numbers by reflexivity;
  unfold clearCodes, partlyCodes, overcastCodes, fogCodes, rainCodes,
         snowCodes, thunderCodes, existsb in *;
  repeat match type of H with
  | (PrimFloat.eqb ?c ?code || _) = true =>
      let E := fresh "E" in
      destruct (PrimFloat.eqb c code) eqn:E;
      [ clear H; emoji_pick code c E | cbn [orb] in H; clear E ]
  end;
  discriminate H.

(** X13: the seven code lists of [weatherEmoji] do not overlap, so a code of a
    list gets that list's icon whatever the order of the tests, and a number
    in no list (56, 57 and 77 of the WMO table among them, and NaN) gets the
    thermometer. *)
Theorem weatherEmoji_groups (code : float) :
  (includes clearCodes code = true -> weatherEmoji code = "☀️"%string) /\
  (includes partlyCodes code = true -> weatherEmoji code = "🌤️"%string) /\
  (includes overcastCodes code = true -> weatherEmoji code = "☁️"%string) /\
  (includes fogCodes code = true -> weatherEmoji code = "🌫️"%string) /\
  (includes rainCodes code = true -> weatherEmoji code = "🌧️"%string) /\
  (includes snowCodes code = true -> weatherEmoji code = "🌨️"%string) /\
  (includes thunderCodes code = true -> weatherEmoji code = "⛈️"%string) /\
  (includes (clearCodes ++ partlyCodes ++ overcastCodes ++ fogCodes ++
             rainCodes ++ snowCodes ++ thunderCodes) code = false ->
   weatherEmoji code = "🌡️"%string).
Proof.
  repeat split; intros H; try solve [emoji_group H].
  unfold includes, clearCodes, partlyCodes, overcastCodes, fogCodes,
    rainCodes, snowCodes, thunderCodes in H.
  cbn [app existsb] in H.
  repeat (apply orb_false_iff in H; destruct H as [? H]).
  unfold weatherEmoji, includes, clearCodes, partlyCodes, overcastCodes,
    fogCodes, rainCodes, snowCodes, thunderCodes, existsb.
  repeat match goal with
  | E : sameValueZero _ code = false |- _ => rewrite E; clear E
  end.
  reflexivity.
Qed.

Lemma weatherEmoji_groups_witness :
  includes snowCodes 73 = true /\ weatherEmoji 73 = "🌨️"%string.
Proof.
  split; [reflexivity|].
  apply (proj1 (proj2 (proj2 (proj2 (proj2 (proj2 (weatherEmoji_groups 73))))))).
  reflexivity.
Defined.

End Presentation.

Section Labels.

Ltac hour_cases h :=
  match goal with
  | H : (0 <= h < 24)%Z |- _ =>
      let E := fresh in
      assert (E : (h = 0 \/ h = 1 \/ h = 2 \/ h = 3 \/ h = 4 \/ h = 5 \/ h = 6 \/
                  h = 7 \/ h = 8 \/ h = 9 \/ h = 10 \/ h = 11 \/ h = 12 \/
                  h = 13 \/ h = 14 \/ h = 15 \/ h = 16 \/ h = 17 \/ h = 18 \/
                  h = 19 \/ h = 20 \/ h = 21 \/ h = 22 \/ h = 23)%Z) by lia;
      clear H; repeat (destruct E as [E|E]; [subst h|]); [..|subst h]
  end.

(** X14: for the hours 0 to 23, [hourLabel] prints a number from 1 to 12 followed
    by AM before noon and PM from noon on, and no two hours share a label;
    an invalid date is labelled like midnight. *)
Theorem hourLabel_distinct (h1 h2 : Z) :
  (0 <= h1 < 24)%Z -> (0 <= h2 < 24)%Z ->
  (exists n, (1 <= n <= 12)%Z /\
     hourLabel (hours h1) =
       (decimal n ++ (if (h1 <? 12)%Z then "AM" else "PM"))%string) /\
  (hourLabel (hours h1) = hourLabel (hours h2) -> h1 = h2) /\
  hourLabel invalidHours = hourLabel (hours 0).
Proof.
  intros H1 H2. split; [|split; [|reflexivity]].
  - exists (if (Z.rem h1 12 =? 0)%Z then 12%Z else Z.rem h1 12).
    hour_cases h1; (split; [vm_compute; split; discriminate|reflexivity]).
  - hour_cases h1; hour_cases h2; intros E; vm_compute in E;
      solve [reflexivity | discriminate E].
Qed.

Lemma hourLabel_distinct_witness :
  (0 <= 13 < 24)%Z /\
  exists n, (1 <= n <= 12)%Z /\
    hourLabel (hours 13) = (decimal n ++ "PM")%string.
Proof.
  split; [lia|].
  apply (proj1 (hourLabel_distinct 13 13 ltac:(lia) ltac:(lia))).
Defined.

(** X15: distinct levels are shown differently (label, badge classes, dot
    classes), and the badge of a level starts with the class of its dot. *)
Theorem level_styles (l1 l2 : Level) :
  (levelLabel l1 = levelLabel l2 -> l1 = l2) /\
  (levelClasses l1 = levelClasses l2 -> l1 = l2) /\
  (dotClasses l1 = dotClasses l2 -> l1 = l2) /\
  String.prefix (dotClasses l1) (levelClasses l1) = true.
Proof.
  destruct l1, l2; repeat split; intros E; try reflexivity; discriminate E.
Qed.

End Labels.

(** ** NaN fields *)

Section NaNFields.

Local Open Scope js_scope.

Ltac nan_rewrite x N :=
  js_unfold;
  rewrite ?(le_nan_l x), ?(le_nan_r _ x), ?(lt_nan_l x), ?(lt_nan_r _ x) by exact N;
  cbn [andb orb].

(** X5: a NaN field fails every comparison made on it.  A NaN temperature,
    wind or air-quality index adds 2 to the total.  A NaN precipitation
    amount leaves the precipitation sub-score to the probability alone
    (1 when precipProb >= 50, else 0), and a NaN probability leaves it to
    the amount alone (2 when precipMm >= 3, 1 when precipMm >= 1, else 0). *)
Theorem nan_fields (p : Reading) :
  let T := temperatureScore p.(activity) p.(tempC) in
  let W := windScore p.(activity) p.(windKmh) in
  let P := precipitationScore p.(precipMm) p.(precipProb) in
  let Q := airQualityScore p.(aqiUS) in
  (Js.isNaN p.(tempC) = true -> safetyScore p = (2 + W + P + Q)%Z) /\
  (Js.isNaN p.(windKmh) = true -> safetyScore p = (T + 2 + P + Q)%Z) /\
  (forall x, p.(aqiUS) = number x -> Js.isNaN x = true ->
     safetyScore p = (T + W + P + 2)%Z) /\
  (Js.isNaN p.(precipMm) = true ->
     safetyScore p =
       (T + W + (if (p.(precipProb) >= 50)%js then 1 else 0) + Q)%Z) /\
  (Js.isNaN p.(precipProb) = true ->
     safetyScore p =
       (T + W + (if (p.(precipMm) >= 3)%js then 2
                 else if (p.(precipMm) >= 1)%js then 1 else 0) + Q)%Z).
Proof.
  cbv zeta. rewrite safetyScore_sum. repeat split.
  - intros N.
    assert (E : temperatureScore (activity p) (tempC p) = 2%Z)
      by (unfold temperatureScore, addTemperature; destruct (activity p);
          nan_rewrite (tempC p) N; reflexivity).
    now rewrite E.
  - intros N.
    assert (E : windScore (activity p) (windKmh p) = 2%Z)
      by (unfold windScore, addWind; destruct (activity p);
          nan_rewrite (windKmh p) N; reflexivity).
    now rewrite E.
  - intros x Hx N. rewrite Hx.
    assert (E : airQualityScore (number x) = 2%Z)
      by (unfold airQualityScore, addAirQuality; nan_rewrite x N; reflexivity).
    now rewrite E.
  - intros N.
    assert (E : precipitationScore (precipMm p) (precipProb p) =
                if precipProb p >= 50 then 1%Z else 0%Z)
      by (unfold precipitationScore, addPrecipitation;
          nan_rewrite (precipMm p) N; reflexivity).
    now rewrite E.
  - intros N.
    assert (E : precipitationScore (precipMm p) (precipProb p) =
                if precipMm p >= 3 then 2%Z
                else if precipMm p >= 1 then 1%Z else 0%Z).
    { unfold precipitationScore, addPrecipitation.
      nan_rewrite (precipProb p) N.
      destruct (PrimFloat.leb 3 (precipMm p)); [reflexivity|].
      destruct (PrimFloat.leb 1 (precipMm p)); reflexivity. }
    now rewrite E.
Qed.

Lemma nan_fields_witness :
  Js.isNaN nan = true /\
  safetyScore (mkReading running 12 10 nan 90 undefined None) =
    (temperatureScore running 12 + windScore running 10
     + (if Js.ge 90 50 then 1 else 0) + airQualityScore undefined)%Z.
Proof.
  split; [reflexivity|].
  apply (proj1 (proj2 (proj2 (proj2
    (nan_fields (mkReading running 12 10 nan 90 undefined None)))))).
  reflexivity.
Defined.

End NaNFields.
